(** * Student records: aggregation and upsert engine

    A shallow embedding of the two programs of the repository:

    - [Desktop]: class [AttendanceSystem] of [main.py], which keeps one
      flattened [students] table holding write-time aggregates;
    - [Web]: class [ReportCardSystem] of the Flask application, which keeps
      normalised [marks] and [attendance] detail rows and aggregates them
      on read.

    Modelling conventions.

    - Python [int] is [Z].  Python [float] is modelled by the exact
      rational it denotes ([Q]); binary64 rounding error, infinities and
      NaN are outside the model.  [round(x, 2)] and the [.2f] format round
      half-to-even on that exact value, as CPython does.
    - Python [str] is [string]; whitespace is ASCII whitespace.
    - An SQLite database file is a record of tables; a table is the list
      of its rows in rowid order.  A transaction works on a copy of the
      committed record and replaces it on [commit]; when an exception
      escapes before [commit] the connection is closed and the committed
      record stays as it was.
    - Exceptions are values of [exn] threaded through the [res] monad. *)

From Stdlib Require Import ZArith QArith Qround Qabs Bool List Lia Lqa.
From Stdlib Require Import Ascii String DecimalString.
From Stdlib Require Import Sorted Permutation.
Import ListNotations.

Local Open Scope string_scope.
Local Open Scope Z_scope.

(** ** Python run-time values and exceptions *)

Module Py.

Inductive exn : Type :=
| IntegrityError (what : string)
| OperationalError (text : string)
| ZeroDivisionError
| ValueError
| TypeError
| AttributeError
| OverflowError.

(** [res A] is a computation that returns an [A] or raises. *)
Definition res (A : Type) : Type := (A + exn)%type.

Definition ret {A} (a : A) : res A := inl a.
Definition raise {A} (e : exn) : res A := inr e.
Definition bind {A B} (m : res A) (k : A -> res B) : res B :=
  match m with
  | inl a => k a
  | inr e => inr e
  end.

Definition Qlt_bool (a b : Q) : bool := negb (Qle_bool b a).

(** What a method hands back as the text of its [(ok, text)] pair: a
    literal or formatted string, or [str(e)] of the exception caught,
    possibly after a fixed prefix.  The wording of an exception is left
    to the interpreter. *)
Inductive message : Type :=
| Text (s : string)
| StrOf (e : exn)
| TextStrOf (s : string) (e : exn).

(** Two computations raise the same exception, or return values that
    [R] relates. *)
Definition res_rel {A B} (R : A -> B -> Prop) (x : res A) (y : res B) : Prop :=
  match x, y with
  | inl a, inl b => R a b
  | inr e1, inr e2 => e1 = e2
  | _, _ => False
  end.

(** [a / b] on numbers. *)
Definition truediv (a b : Q) : res Q :=
  if Qeq_bool b 0 then raise ZeroDivisionError else ret (a / b)%Q.

(** Nearest integer, ties to the even one. *)
Definition round_half_even (x : Q) : Z :=
  let f := Qfloor x in
  match Qcompare (x - inject_Z f) (1 # 2) with
  | Lt => f
  | Gt => f + 1
  | Eq => if Z.even f then f else f + 1
  end.

(** [round(x, 2)]. *)
Definition round2 (x : Q) : Q :=
  Qred (inject_Z (round_half_even (x * 100)) / 100).

(** [int(x)] on a float: truncation towards zero. *)
Definition trunc (x : Q) : Z :=
  if Qle_bool 0 x then Qfloor x else Qceiling x.

(** The values a decoded JSON document can hold at a leaf; arrays and
    nested objects, which none of the conversions below accepts, are
    [PyOther]. *)
Inductive pyval : Type :=
| PyNone
| PyBool (b : bool)
| PyInt (z : Z)
| PyFloat (q : Q)
| PyStr (s : string)
| PyOther.

Definition isspace (c : ascii) : bool :=
  let n := nat_of_ascii c in
  ((9 <=? n) && (n <=? 13) || (28 <=? n) && (n <=? 32))%nat.

Fixpoint all_space (s : string) : bool :=
  match s with
  | EmptyString => true
  | String c s' => isspace c && all_space s'
  end.

(** [str(v).strip() != ""].  The text of a number, a boolean, [None], a
    list or a dict always contains a character that is not a space. *)
Definition str_strip_nonempty (v : pyval) : bool :=
  match v with
  | PyStr s => negb (all_space s)
  | _ => true
  end.

Definition upper_ascii (c : ascii) : ascii :=
  let n := nat_of_ascii c in
  if ((97 <=? n) && (n <=? 122))%nat then ascii_of_nat (n - 32) else c.

Fixpoint upper (s : string) : string :=
  match s with
  | EmptyString => EmptyString
  | String c s' => String (upper_ascii c) (upper s')
  end.

(** [s[:n]] *)
Fixpoint take (n : nat) (s : string) : string :=
  match n, s with
  | S n', String c s' => String c (take n' s')
  | _, _ => EmptyString
  end.

Fixpoint repeat_zero (n : nat) : string :=
  match n with
  | O => EmptyString
  | S n' => String "0" (repeat_zero n')
  end.

(** [str(n)] for a natural number. *)
Definition str_nat (n : nat) : string := NilZero.string_of_uint (Nat.to_uint n).

(** [s.zfill(w)] for a string of digits. *)
Definition zfill (w : nat) (s : string) : string :=
  repeat_zero (w - String.length s) ++ s.

(** [needle in hay] *)
Fixpoint contains (needle hay : string) : bool :=
  String.prefix needle hay
  || match hay with
     | EmptyString => false
     | String _ hay' => contains needle hay'
     end.

(** [f"{x:.2f}"] *)
Definition format_2f (x : Q) : string :=
  let k := round_half_even (Qabs x * 100) in
  let frac := str_nat (Z.to_nat (k mod 100)) in
  (if Qlt_bool x 0 then "-" else "")
  ++ str_nat (Z.to_nat (k / 100)) ++ "." ++ zfill 2 frac.

(** Bounds of an SQLite INTEGER; binding a larger Python [int] raises. *)
Definition fits_int64 (z : Z) : bool :=
  (- 2 ^ 63 <=? z) && (z <? 2 ^ 63).

Definition bind_int (z : Z) : res Z :=
  if fits_int64 z then ret z else raise OverflowError.

End Py.

Notation "x <- m ;; k" := (Py.bind m (fun x => k))
  (at level 61, m at next level, right associativity).

(** ** The desktop program ([main.py], class [AttendanceSystem]) *)

Module Desktop.
Import Py.

Record student : Type := {
  student_id : string;
  name : string;
  email : string;
  year : string;
  department : string;
  total_classes : Z;
  present_classes : Z;
  absent_classes : Z;
  percentage : Q;
  status : string;
  created_date : string
}.

Record email_settings_row : Type := {
  sender_email : string;
  sender_password : string;
  hod_email : string;
  threshold_percentage : Q
}.

(** The database file: table [students] and the row with [id = 1] of
    table [email_settings], when it exists. *)
Record db : Type := {
  students : list student;
  email_settings : option email_settings_row
}.

(** A directory in which the program has not run yet. *)
Definition new_file : db :=
  {| students := []; email_settings := None |}.

(** [init_database] creates the two tables if they do not exist and adds
    no row. *)
Definition init_database (s : db) : db := s.

Definition calculate_percentage (total present : Q) : res Q :=
  if Qlt_bool 0 total then
    q <- truediv present total ;;
    ret (round2 (q * 100))
  else ret 0%Q.

Definition get_status (percentage : Q) : string :=
  if Qle_bool 75 percentage then "Good"
  else if Qle_bool 60 percentage then "Warning"
  else "Critical".

(** *** Connections and the retry loop

    Another process may hold the file: [faults attempt = Some text] says
    that in the given pass of the loop SQLite raises
    [OperationalError(text)] when the connection is set up, before
    anything is written. *)
Definition faults : Type := nat -> option string.

Definition get_connection (f : faults) (attempt : nat) : res unit :=
  match f attempt with
  | Some text => raise (OperationalError text)
  | None => ret tt
  end.

Definition max_retries : nat := 3.

(** One pass of [for attempt in range(max_retries)]: the method returns,
    or the pass ends in [continue]. *)
Inductive pass (A : Type) : Type :=
| Return (a : A)
| Continue.
Arguments Return {A} a.
Arguments Continue {A}.

(** The loop; [None] is the value of a method whose loop runs out. *)
Fixpoint for_attempt {A} (range : list nat) (body : nat -> pass A) : option A :=
  match range with
  | [] => None
  | attempt :: range' =>
      match body attempt with
      | Return a => Some a
      | Continue => for_attempt range' body
      end
  end.

(** [except sqlite3.OperationalError as e] of every method. *)
Definition on_operational_error {A} (attempt : nat) (text : string) (gives_up : A)
  : pass A :=
  if contains "locked" text && (attempt <? max_retries - 1)%nat
  then Continue
  else Return gives_up.

Definition has_student (sid : string) (s : db) : bool :=
  existsb (fun r => String.eqb (student_id r) sid) (students s).

(** [INSERT INTO students VALUES (?,?,?,?,?,?,?,?,?,?,?)] *)
Definition insert_student (s : db) (r : student) : res db :=
  _ <- bind_int (total_classes r) ;;
  _ <- bind_int (present_classes r) ;;
  _ <- bind_int (absent_classes r) ;;
  if has_student (student_id r) s
  then raise (IntegrityError "UNIQUE constraint failed: students.student_id")
  else ret {| students := students s ++ [r];
              email_settings := email_settings s |}.

Definition add_student_try (today : string) (f : faults) (attempt : nat) (s : db)
    (student_id name email year department : string)
    (total present absent : Z) : res db :=
  percentage <- calculate_percentage (inject_Z total) (inject_Z present) ;;
  let status := get_status percentage in
  let created_date := today in
  _ <- get_connection f attempt ;;
  insert_student s
    {| student_id := student_id; name := name; email := email; year := year;
       department := department; total_classes := total;
       present_classes := present; absent_classes := absent;
       percentage := percentage; status := status;
       created_date := created_date |}.

Definition add_student (today : string) (f : faults) (s : db)
    (student_id name email year department : string)
    (total present absent : Z) : option ((bool * message) * db) :=
  for_attempt (seq 0 max_retries) (fun attempt =>
    match add_student_try today f attempt s student_id name email year
            department total present absent with
    | inl s' => Return (true, Text ("Student " ++ name ++ " added successfully!"), s')
    | inr (IntegrityError _) => Return (false, Text "Student ID already exists!", s)
    | inr (OperationalError text) =>
        on_operational_error attempt text (false, StrOf (OperationalError text), s)
    | inr e => Return (false, StrOf e, s)
    end).

(** [UPDATE students SET ... WHERE student_id=?]; [created_date] is not
    in the SET list. *)
Definition update_row (student_id name email year department : string)
    (total present absent : Z) (percentage : Q) (status : string)
    (r : student) : student :=
  if String.eqb (Desktop.student_id r) student_id then
    {| student_id := Desktop.student_id r; name := name; email := email;
       year := year; department := department; total_classes := total;
       present_classes := present; absent_classes := absent;
       percentage := percentage; status := status;
       created_date := created_date r |}
  else r.

Definition update_student_try (f : faults) (attempt : nat) (s : db)
    (student_id name email year department : string)
    (total present absent : Z) : res db :=
  percentage <- calculate_percentage (inject_Z total) (inject_Z present) ;;
  let status := get_status percentage in
  _ <- get_connection f attempt ;;
  _ <- bind_int total ;;
  _ <- bind_int present ;;
  _ <- bind_int absent ;;
  ret {| students :=
           map (update_row student_id name email year department
                  total present absent percentage status) (students s);
         email_settings := email_settings s |}.

Definition update_student (f : faults) (s : db)
    (student_id name email year department : string)
    (total present absent : Z) : option ((bool * message) * db) :=
  for_attempt (seq 0 max_retries) (fun attempt =>
    match update_student_try f attempt s student_id name email year
            department total present absent with
    | inl s' => Return (true, Text "Student updated successfully!", s')
    | inr (OperationalError text) =>
        on_operational_error attempt text (false, StrOf (OperationalError text), s)
    | inr e => Return (false, StrOf e, s)
    end).

Definition delete_student_try (f : faults) (attempt : nat) (s : db)
    (student_id : string) : res db :=
  _ <- get_connection f attempt ;;
  ret {| students :=
           filter (fun r => negb (String.eqb (Desktop.student_id r) student_id))
                  (students s);
         email_settings := email_settings s |}.

Definition delete_student (f : faults) (s : db) (student_id : string)
  : option ((bool * message) * db) :=
  for_attempt (seq 0 max_retries) (fun attempt =>
    match delete_student_try f attempt s student_id with
    | inl s' => Return (true, Text "Student deleted successfully!", s')
    | inr (OperationalError text) =>
        on_operational_error attempt text (false, StrOf (OperationalError text), s)
    | inr e => Return (false, StrOf e, s)
    end).

(** [INSERT OR REPLACE INTO email_settings VALUES (1, ?, ?, ?, ?)] *)
Definition save_email_settings_try (f : faults) (attempt : nat) (s : db)
    (sender_email sender_password hod_email : string) (threshold : Q) : res db :=
  _ <- get_connection f attempt ;;
  ret {| students := students s;
         email_settings :=
           Some {| sender_email := sender_email;
                   sender_password := sender_password;
                   hod_email := hod_email;
                   threshold_percentage := threshold |} |}.

Definition save_email_settings (f : faults) (s : db)
    (sender_email sender_password hod_email : string) (threshold : Q)
  : option (bool * db) :=
  for_attempt (seq 0 max_retries) (fun attempt =>
    match save_email_settings_try f attempt s sender_email sender_password
            hod_email threshold with
    | inl s' => Return (true, s')
    | inr (OperationalError text) => on_operational_error attempt text (false, s)
    | inr _ => Return (false, s)
    end).

(** *** Runs of the program *)

Inductive call : Type :=
| Add_student (today : string) (f : faults)
    (student_id name email year department : string) (total present absent : Z)
| Update_student (f : faults)
    (student_id name email year department : string) (total present absent : Z)
| Delete_student (f : faults) (student_id : string)
| Save_email_settings (f : faults)
    (sender_email sender_password hod_email : string) (threshold : Q).

(** The file a call leaves behind. *)
Definition exec (s : db) (c : call) : db :=
  match c with
  | Add_student today f sid name email year dept total present absent =>
      match add_student today f s sid name email year dept total present absent with
      | Some (_, s') => s'
      | None => s
      end
  | Update_student f sid name email year dept total present absent =>
      match update_student f s sid name email year dept total present absent with
      | Some (_, s') => s'
      | None => s
      end
  | Delete_student f sid =>
      match delete_student f s sid with
      | Some (_, s') => s'
      | None => s
      end
  | Save_email_settings f se sp hod threshold =>
      match save_email_settings f s se sp hod threshold with
      | Some (_, s') => s'
      | None => s
      end
  end.

Definition run (calls : list call) (s : db) : db := fold_left exec calls s.



(** The rule the code keeps: the guard is [total > 0]. *)
Definition code_percentage (total present : Z) : Q :=
  if (0 <? total)%Z
  then round2 (inject_Z present / inject_Z total * 100)%Q
  else 0%Q.

Definition consistent (r : student) : Prop :=
  percentage r = code_percentage (total_classes r) (present_classes r)
  /\ status r = get_status (percentage r).

(** Every row of [students] keeps that rule. *)
Definition all_consistent (s : db) : Prop := Forall consistent (students s).

(** Two calls that differ at most in the threshold handed to
    [save_email_settings]. *)
Inductive same_but_threshold : call -> call -> Prop :=
| sbt_refl c : same_but_threshold c c
| sbt_save f se sp hod t1 t2 :
    same_but_threshold (Save_email_settings f se sp hod t1)
                       (Save_email_settings f se sp hod t2).

(** *** Sample data *)

Definition no_fault : faults := fun _ => None.


(** The same two calls, but for the threshold that is saved. *)
Definition threshold_run (threshold : Q) : list call :=
  [Save_email_settings no_fault "office@example.org" "secret" "hod@example.org"
     threshold;
   Add_student "2024-06-01" no_fault "S1" "Asha" "" "1st Year" "B.Sc. Physics"
     40 28 12].

End Desktop.

(** ** The web program (class [ReportCardSystem]) *)

Module Web.
Import Py.

Definition DEPARTMENTS : list string :=
  [ "B.A. Economics"; "B.A. English"; "B.A. Tamil"; "B.Sc. Botany";
    "B.Sc. Chemistry"; "B.Sc. Mathematics"; "B.Sc. Physics";
    "B.Sc. Computer Science"; "B.Sc. Marine Biology"; "B.Com.";
    "B.Com. (CA)"; "Other" ].

(** *** Schema

    Columns carry the alias of their table as a prefix. *)

Record department : Type := {
  d_dept_code : string;
  d_dept_name : string
}.

Record student : Type := {
  s_student_id : string;
  s_name : string;
  s_dept_code : string;
  s_year : Z;
  s_semester : Z;
  s_email : string;
  s_program_type : string;
  s_duration_years : Z;
  s_course_name : string;
  s_created_date : string
}.

Record subject : Type := {
  sub_subject_id : Z;
  sub_subject_name : string;
  sub_subject_code : string;
  sub_year : Z;
  sub_semester : Z;
  sub_max_marks : Z
}.

Record mark : Type := {
  m_mark_id : Z;
  m_student_id : string;
  m_subject_code : string;
  m_marks : Q
}.

Record attendance_row : Type := {
  a_att_id : Z;
  a_student_id : string;
  a_month : string;
  a_classes_held : Z;
  a_classes_attended : Z
}.

Record settings_row : Type := {
  smtp_email : option string;
  smtp_app_password : option string
}.

(** Table [sqlite_sequence]: for each AUTOINCREMENT table the largest
    rowid it has handed out. *)
Record sqlite_sequence : Type := {
  seq_subjects : Z;
  seq_marks : Z;
  seq_attendance : Z
}.

Record db : Type := {
  departments : list department;
  students : list student;
  subjects : list subject;
  marks : list mark;
  attendance : list attendance_row;
  settings : option settings_row;
  sequence : sqlite_sequence
}.

Definition new_file : db :=
  {| departments := []; students := []; subjects := []; marks := [];
     attendance := []; settings := None;
     sequence := {| seq_subjects := 0; seq_marks := 0; seq_attendance := 0 |} |}.

Definition set_departments (l : list department) (s : db) : db :=
  {| departments := l; students := students s; subjects := subjects s;
     marks := marks s; attendance := attendance s; settings := settings s;
     sequence := sequence s |}.

Definition set_students (l : list student) (s : db) : db :=
  {| departments := departments s; students := l; subjects := subjects s;
     marks := marks s; attendance := attendance s; settings := settings s;
     sequence := sequence s |}.

Definition set_subjects (l : list subject) (n : Z) (s : db) : db :=
  {| departments := departments s; students := students s; subjects := l;
     marks := marks s; attendance := attendance s; settings := settings s;
     sequence := {| seq_subjects := n;
                    seq_marks := seq_marks (sequence s);
                    seq_attendance := seq_attendance (sequence s) |} |}.

Definition set_marks (l : list mark) (n : Z) (s : db) : db :=
  {| departments := departments s; students := students s;
     subjects := subjects s; marks := l; attendance := attendance s;
     settings := settings s;
     sequence := {| seq_subjects := seq_subjects (sequence s);
                    seq_marks := n;
                    seq_attendance := seq_attendance (sequence s) |} |}.

Definition set_attendance (l : list attendance_row) (n : Z) (s : db) : db :=
  {| departments := departments s; students := students s;
     subjects := subjects s; marks := marks s; attendance := l;
     settings := settings s;
     sequence := {| seq_subjects := seq_subjects (sequence s);
                    seq_marks := seq_marks (sequence s);
                    seq_attendance := n |} |}.

Definition set_settings (r : option settings_row) (s : db) : db :=
  {| departments := departments s; students := students s;
     subjects := subjects s; marks := marks s; attendance := attendance s;
     settings := r; sequence := sequence s |}.

(** *** SQLite statements

    A connection enforces the FOREIGN KEY clauses of the schema only
    after [PRAGMA foreign_keys = ON] has been run on it; a connection
    starts with the pragma off. *)
Record connection : Type := { foreign_keys : bool }.

(** [sqlite3.connect(self.db_file)]; the program runs no PRAGMA on it. *)
Definition sqlite3_connect : connection := {| foreign_keys := false |}.

Definition has_department (code : string) (s : db) : bool :=
  existsb (fun d => String.eqb (d_dept_code d) code) (departments s).

Definition has_student (sid : string) (s : db) : bool :=
  existsb (fun r => String.eqb (s_student_id r) sid) (students s).

Definition has_subject (code : string) (s : db) : bool :=
  existsb (fun r => String.eqb (sub_subject_code r) code) (subjects s).

Definition not_of_student (sid : string) (owner : string) : bool :=
  negb (String.eqb owner sid).

(** [DELETE FROM marks WHERE student_id = ?] *)
Definition delete_marks (sid : string) (s : db) : db :=
  set_marks (filter (fun m => not_of_student sid (m_student_id m)) (marks s))
            (seq_marks (sequence s)) s.

(** [DELETE FROM attendance WHERE student_id = ?] *)
Definition delete_attendance (sid : string) (s : db) : db :=
  set_attendance
    (filter (fun a => not_of_student sid (a_student_id a)) (attendance s))
    (seq_attendance (sequence s)) s.

(** The rowid an AUTOINCREMENT table gives its next row. *)
Definition next_rowid (seq : Z) (ids : list Z) : Z :=
  Z.max seq (fold_right Z.max 0 ids) + 1.

Definition fk_failed : exn := IntegrityError "FOREIGN KEY constraint failed".

(** [INSERT OR REPLACE INTO students (...) VALUES (...)]: a row with the
    same primary key is deleted first, and with it, on a connection that
    enforces foreign keys, the rows that reference it ON DELETE CASCADE. *)
Definition insert_or_replace_student (conn : connection) (r : student) (s : db)
  : res db :=
  _ <- bind_int (s_year r) ;;
  _ <- bind_int (s_semester r) ;;
  _ <- bind_int (s_duration_years r) ;;
  let sid := s_student_id r in
  let s1 := if foreign_keys conn && has_student sid s
            then delete_attendance sid (delete_marks sid s)
            else s in
  let s2 := set_students
              (filter (fun x => not_of_student sid (s_student_id x)) (students s)
               ++ [r]) s1 in
  if foreign_keys conn && negb (has_department (s_dept_code r) s)
  then raise fk_failed
  else ret s2.

(** [INSERT INTO marks (student_id, subject_code, marks) VALUES (?, ?, ?)] *)
Definition insert_mark (conn : connection) (sid code : string) (v : Q) (s : db)
  : res db :=
  if existsb (fun m => String.eqb (m_student_id m) sid
                       && String.eqb (m_subject_code m) code) (marks s)
  then raise (IntegrityError
                "UNIQUE constraint failed: marks.student_id, marks.subject_code")
  else if foreign_keys conn && negb (has_student sid s && has_subject code s)
  then raise fk_failed
  else
    let id := next_rowid (seq_marks (sequence s)) (map m_mark_id (marks s)) in
    ret (set_marks
           (marks s ++ [{| m_mark_id := id; m_student_id := sid;
                           m_subject_code := code; m_marks := v |}])
           id s).

(** [INSERT INTO attendance (student_id, month, classes_held,
    classes_attended) VALUES (?, ?, ?, ?)] *)
Definition insert_attendance (conn : connection) (sid month : string)
    (held attended : Z) (s : db) : res db :=
  _ <- bind_int held ;;
  _ <- bind_int attended ;;
  if existsb (fun a => String.eqb (a_student_id a) sid
                       && String.eqb (a_month a) month) (attendance s)
  then raise (IntegrityError
                "UNIQUE constraint failed: attendance.student_id, attendance.month")
  else if foreign_keys conn && negb (has_student sid s)
  then raise fk_failed
  else
    let id := next_rowid (seq_attendance (sequence s))
                         (map a_att_id (attendance s)) in
    ret (set_attendance
           (attendance s ++ [{| a_att_id := id; a_student_id := sid;
                                a_month := month; a_classes_held := held;
                                a_classes_attended := attended |}])
           id s).

(** [ORDER BY]: a stable sort by insertion. *)
Fixpoint insert_by {A} (le : A -> A -> bool) (x : A) (l : list A) : list A :=
  match l with
  | [] => [x]
  | y :: l' => if le x y then x :: l else y :: insert_by le x l'
  end.

Definition order_by {A} (le : A -> A -> bool) (l : list A) : list A :=
  fold_right (insert_by le) [] l.

(** *** Initialisation *)

(** [INSERT INTO departments (dept_code, dept_name) VALUES (?, ?)] *)
Definition insert_department (code name : string) (s : db) : res db :=
  if existsb (fun d => String.eqb (d_dept_code d) code
                       || String.eqb (d_dept_name d) name) (departments s)
  then raise (IntegrityError "UNIQUE constraint failed: departments")
  else ret (set_departments
              (departments s ++ [{| d_dept_code := code; d_dept_name := name |}]) s).

(** The loop [for i, dept in enumerate(DEPARTMENTS)], from index [i]. *)
Fixpoint populate_from (i : nat) (depts : list string) (s : db) : res db :=
  match depts with
  | [] => ret s
  | dept :: depts' =>
      let code := upper (take 3 dept) ++ zfill 2 (str_nat (i + 1)) in
      s1 <- insert_department code dept s ;;
      populate_from (S i) depts' s1
  end.

Definition _populate_default_departments (s : db) : res db :=
  populate_from 0 DEPARTMENTS s.

(** [init_database]; [None] is [sys.exit(1)]. *)
Definition init_database (s : db) : option db :=
  let s1 := match settings s with
            | Some _ => s
            | None => set_settings
                        (Some {| smtp_email := None; smtp_app_password := None |}) s
            end in
  if (List.length (departments s1) =? 0)%nat then
    match _populate_default_departments s1 with
    | inl s2 => Some s2
    | inr _ => None
    end
  else Some s1.

(** [SELECT dept_code, dept_name FROM departments ORDER BY dept_name] *)
Definition get_all_departments (s : db) : list (string * string) :=
  map (fun d => (d_dept_code d, d_dept_name d))
      (order_by (fun a b => String.leb (d_dept_name a) (d_dept_name b))
                (departments s)).

(** [next(generator, default)] *)
Definition next {A} (l : list A) (default : A) : A :=
  match l with
  | [] => default
  | x :: _ => x
  end.

(** *** Payload conversions

    [float(s)] and [int(s)] on a string follow Python's literal grammar,
    which is not reproduced: the two parsers are parameters, and every
    result below holds whatever they accept. *)

Section Program.

Variable float_of_str : string -> res Q.
Variable int_of_str : string -> res Z.

(** [float(v)] *)
Definition float (v : pyval) : res Q :=
  match v with
  | PyNone => raise TypeError
  | PyBool b => ret (if b then 1 else 0)%Q
  | PyInt z => ret (inject_Z z)
  | PyFloat q => ret q
  | PyStr s => float_of_str s
  | PyOther => raise TypeError
  end.

(** [int(v)] *)
Definition int (v : pyval) : res Z :=
  match v with
  | PyNone => raise TypeError
  | PyBool b => ret (if b then 1 else 0)
  | PyInt z => ret z
  | PyFloat q => ret (trunc q)
  | PyStr s => int_of_str s
  | PyOther => raise TypeError
  end.

Definition is_not_none (v : pyval) : bool :=
  match v with
  | PyNone => false
  | _ => true
  end.

(** A value of the [attendance_data] mapping: a JSON object of leaves,
    or anything else. *)
Inductive pyobj : Type :=
| Dict (items : list (string * pyval))
| NotDict (v : pyval).

(** [data.get(key, default)] *)
Definition get (data : pyobj) (key : string) (default : pyval) : res pyval :=
  match data with
  | Dict items =>
      ret (next (map snd (filter (fun kv => String.eqb (fst kv) key) items))
                default)
  | NotDict _ => raise AttributeError
  end.

(** *** Upsert *)

(** The body of [for code, marks in marks_data.items()]. *)
Definition save_mark (conn : connection) (student_id : string)
    (item : string * pyval) (s : db) : res db :=
  let (code, marks) := item in
  if is_not_none marks && str_strip_nonempty marks then
    v <- float marks ;;
    insert_mark conn student_id code v s
  else ret s.

Fixpoint save_marks (conn : connection) (student_id : string)
    (items : list (string * pyval)) (s : db) : res db :=
  match items with
  | [] => ret s
  | item :: items' =>
      s1 <- save_mark conn student_id item s ;;
      save_marks conn student_id items' s1
  end.

(** The body of [for month, data in attendance_data.items()]. *)
Definition save_month (conn : connection) (student_id : string)
    (item : string * pyobj) (s : db) : res db :=
  let (month, data) := item in
  h <- get data "held" (PyInt 0) ;;
  held <- int h ;;
  a <- get data "attended" (PyInt 0) ;;
  attended <- int a ;;
  if 0 <? held then insert_attendance conn student_id month held attended s
  else ret s.

Fixpoint save_months (conn : connection) (student_id : string)
    (items : list (string * pyobj)) (s : db) : res db :=
  match items with
  | [] => ret s
  | item :: items' =>
      s1 <- save_month conn student_id item s ;;
      save_months conn student_id items' s1
  end.

(** [next((d[0] for d in self.get_all_departments() if d[1] == dept_name),
    "OTH99")] *)
Definition find_dept_code (committed : db) (dept_name : string) : string :=
  next (map fst (filter (fun d => String.eqb (snd d) dept_name)
                        (get_all_departments committed)))
       "OTH99".

(** The statements of [add_or_update_student] between [connect] and
    [commit], on connection [conn]; [committed] is the file as other
    connections see it. *)
Definition save_student (conn : connection) (today : string) (committed : db)
    (student_id name dept_name : string) (year semester : Z)
    (email program_type : string) (duration_years : Z) (course_name : string)
    (marks_data : list (string * pyval))
    (attendance_data : list (string * pyobj)) : res db :=
  let dept_code := find_dept_code committed dept_name in
  s1 <- insert_or_replace_student conn
          {| s_student_id := student_id; s_name := name;
             s_dept_code := dept_code; s_year := year;
             s_semester := semester; s_email := email;
             s_program_type := program_type;
             s_duration_years := duration_years;
             s_course_name := course_name; s_created_date := today |}
          committed ;;
  let s2 := delete_marks student_id s1 in
  let s3 := delete_attendance student_id s2 in
  s4 <- save_marks conn student_id marks_data s3 ;;
  save_months conn student_id attendance_data s4.

(** [today] is [datetime.now().strftime("%Y-%m-%d")] at the call. *)
Definition add_or_update_student (today : string) (s : db)
    (student_id name dept_name : string) (year semester : Z)
    (email program_type : string) (duration_years : Z) (course_name : string)
    (marks_data : list (string * pyval))
    (attendance_data : list (string * pyobj)) : (bool * message) * db :=
  match save_student sqlite3_connect today s student_id name dept_name year
          semester email program_type duration_years course_name marks_data
          attendance_data with
  | inl s' =>
      (true, Text ("Student " ++ student_id ++ " data saved/updated successfully."),
       s')
  | inr (IntegrityError _) =>
      (false,
       Text ("Error: Student ID " ++ student_id
             ++ " already exists or data is corrupt."),
       s)
  | inr e => (false, TextStrOf "Database error during save: " e, s)
  end.

(** *** Stored records and payload entries *)

Definition saved (r : (bool * message) * db) : bool := fst (fst r).

(** A Mark and an Attendance record of the data model: the row without
    its rowid. *)
Definition mark_view (m : mark) : string * string * Q :=
  (m_student_id m, m_subject_code m, m_marks m).

Definition attendance_view (a : attendance_row) : string * string * Z * Z :=
  (a_student_id a, a_month a, a_classes_held a, a_classes_attended a).

(** Two files hold the same Mark and Attendance records. *)
Definition same_details (s t : db) : Prop :=
  map mark_view (marks s) = map mark_view (marks t)
  /\ map attendance_view (attendance s) = map attendance_view (attendance t).

(** A student row without its [created_date]. *)
Definition undated (r : student)
  : string * string * string * Z * Z * string * string * Z * string :=
  (s_student_id r, s_name r, s_dept_code r, s_year r, s_semester r, s_email r,
   s_program_type r, s_duration_years r, s_course_name r).

Definition marks_of (sid : string) (s : db) : list mark :=
  filter (fun m => String.eqb (m_student_id m) sid) (marks s).

Definition attendance_of (sid : string) (s : db) : list attendance_row :=
  filter (fun a => String.eqb (a_student_id a) sid) (attendance s).

(** The value of a marks entry is present and not blank. *)
Definition mark_wanted (item : string * pyval) : bool :=
  is_not_none (snd item) && str_strip_nonempty (snd item).

Definition month_held (item : string * pyobj) : res Z :=
  h <- get (snd item) "held" (PyInt 0) ;; int h.

Definition month_attended (item : string * pyobj) : res Z :=
  a <- get (snd item) "attended" (PyInt 0) ;; int a.

(** The [held] value of a month entry is greater than zero. *)
Definition month_wanted (item : string * pyobj) : bool :=
  match month_held item with
  | inl held => 0 <? held
  | inr _ => false
  end.

(** The Mark row an entry of [marks_data] is stored as, and the
    Attendance row of an entry of [attendance_data]. *)
Definition mark_from (sid : string) (m : mark) (item : string * pyval) : Prop :=
  m_student_id m = sid /\ m_subject_code m = fst item
  /\ float (snd item) = inl (m_marks m).

Definition month_from (sid : string) (a : attendance_row)
    (item : string * pyobj) : Prop :=
  a_student_id a = sid /\ a_month a = fst item
  /\ month_held item = inl (a_classes_held a)
  /\ month_attended item = inl (a_classes_attended a).

End Program.

(** [add_subject]; an exception that is not an [sqlite3.Error] leaves
    the method. *)
Definition add_subject (s : db) (name code : string) (year semester max_marks : Z)
  : res (bool * message) * db :=
  match
    (_ <- bind_int year ;;
     _ <- bind_int semester ;;
     _ <- bind_int max_marks ;;
     if has_subject code s
     then raise (IntegrityError "UNIQUE constraint failed: subjects.subject_code")
     else
       let id := next_rowid (seq_subjects (sequence s))
                            (map sub_subject_id (subjects s)) in
       ret (set_subjects
              (subjects s ++ [{| sub_subject_id := id; sub_subject_name := name;
                                 sub_subject_code := code; sub_year := year;
                                 sub_semester := semester;
                                 sub_max_marks := max_marks |}])
              id s))
  with
  | inl s' => (ret (true, Text ("Subject '" ++ name ++ "' added successfully.")), s')
  | inr (IntegrityError _) =>
      (ret (false, Text ("Subject code '" ++ code ++ "' already exists.")), s)
  | inr (OperationalError text) =>
      (ret (false, TextStrOf "Database error: " (OperationalError text)), s)
  | inr e => (raise e, s)
  end.

(** [UPDATE settings SET smtp_email = ?, smtp_app_password = ? WHERE id = 1] *)
Definition save_email_settings (s : db) (smtp_email smtp_app_password : string) : db :=
  match settings s with
  | Some _ => set_settings (Some {| smtp_email := Some smtp_email;
                                    smtp_app_password := Some smtp_app_password |}) s
  | None => s
  end.

(** *** Projections *)

(** [(num / den * 100) if den > 0 else 0.0]; the guard keeps the
    division from raising. *)
Definition percent (num den : Q) : Q :=
  if Qlt_bool 0 den then (num / den * 100)%Q else 0%Q.

Definition sum_Z (l : list Z) : Z := fold_right Z.add 0 l.
Definition sum_Q (l : list Q) : Q := fold_right Qplus 0%Q l.

(** [SELECT SUM(classes_held), SUM(classes_attended) FROM attendance
    WHERE student_id = ?], with [(0, 0)] standing in for the NULLs of an
    empty selection. *)
Definition attendance_sums (s : db) (sid : string) : Z * Z :=
  let rows := filter (fun a => String.eqb (a_student_id a) sid) (attendance s) in
  (sum_Z (map a_classes_held rows), sum_Z (map a_classes_attended rows)).

(** [marks m JOIN subjects s ON m.subject_code = s.subject_code
    WHERE m.student_id = ?] *)
Definition marks_join_subjects (s : db) (sid : string) : list (mark * subject) :=
  flat_map
    (fun m =>
       map (fun sub => (m, sub))
           (filter (fun sub => String.eqb (m_subject_code m) (sub_subject_code sub))
                   (subjects s)))
    (filter (fun m => String.eqb (m_student_id m) sid) (marks s)).

Definition marks_sums (s : db) (sid : string) : Q * Z :=
  let rows := marks_join_subjects s sid in
  (sum_Q (map (fun r => m_marks (fst r)) rows),
   sum_Z (map (fun r => sub_max_marks (snd r)) rows)).

(** [students s JOIN departments d ON s.dept_code = d.dept_code] *)
Definition students_join_departments (s : db) (l : list student)
  : list (student * department) :=
  flat_map
    (fun r =>
       map (fun d => (r, d))
           (filter (fun d => String.eqb (s_dept_code r) (d_dept_code d))
                   (departments s)))
    l.

Record summary : Type := {
  sum_student_id : string;
  sum_name : string;
  sum_dept_name : string;
  sum_year : Z;
  sum_semester : Z;
  sum_email : string;
  sum_program_type : string;
  sum_duration_years : Z;
  sum_course_name : string;
  sum_attendance_percent : string;
  sum_marks_percent : string
}.

(** [ORDER BY s.dept_code, s.year, s.student_id] *)
Definition summary_order (a b : student * department) : bool :=
  match String.compare (s_dept_code (fst a)) (s_dept_code (fst b)) with
  | Lt => true
  | Gt => false
  | Eq =>
      match Z.compare (s_year (fst a)) (s_year (fst b)) with
      | Lt => true
      | Gt => false
      | Eq => String.leb (s_student_id (fst a)) (s_student_id (fst b))
      end
  end.

Definition summarise (s : db) (row : student * department) : summary :=
  let (r, d) := row in
  let (held, attended) := attendance_sums s (s_student_id r) in
  let att_percent := percent (inject_Z attended) (inject_Z held) in
  let (total_marks, total_max) := marks_sums s (s_student_id r) in
  let mark_percent := percent total_marks (inject_Z total_max) in
  {| sum_student_id := s_student_id r; sum_name := s_name r;
     sum_dept_name := d_dept_name d; sum_year := s_year r;
     sum_semester := s_semester r; sum_email := s_email r;
     sum_program_type := s_program_type r;
     sum_duration_years := s_duration_years r;
     sum_course_name := s_course_name r;
     sum_attendance_percent := format_2f att_percent ++ "%";
     sum_marks_percent := format_2f mark_percent ++ "%" |}.

Definition get_all_students_summary (s : db) : list summary :=
  map (summarise s)
      (order_by summary_order (students_join_departments s (students s))).

Definition month_rank (month : string) : Z :=
  if String.eqb month "Jan" then 1 else if String.eqb month "Feb" then 2
  else if String.eqb month "Mar" then 3 else if String.eqb month "Apr" then 4
  else if String.eqb month "May" then 5 else if String.eqb month "Jun" then 6
  else if String.eqb month "Jul" then 7 else if String.eqb month "Aug" then 8
  else if String.eqb month "Sep" then 9 else if String.eqb month "Oct" then 10
  else if String.eqb month "Nov" then 11 else if String.eqb month "Dec" then 12
  else 0.

(** The three values of [get_student_details_and_data]; [None] is the
    triple [(None, None, None)].  A month outside the CASE list sorts as
    NULL, before the twelve. *)
Definition get_student_details_and_data (s : db) (student_id : string)
  : option ((student * string)
            * list (string * string * Z * Q)
            * list (string * Z * Z)) :=
  match students_join_departments s
          (filter (fun r => String.eqb (s_student_id r) student_id) (students s))
  with
  | [] => None
  | (r, d) :: _ =>
      Some (r, d_dept_name d,
            map (fun row => (sub_subject_code (snd row), sub_subject_name (snd row),
                             sub_max_marks (snd row), m_marks (fst row)))
                (marks_join_subjects s student_id),
            map (fun a => (a_month a, a_classes_held a, a_classes_attended a))
                (order_by (fun a b => month_rank (a_month a) <=? month_rank (a_month b))
                   (filter (fun a => String.eqb (a_student_id a) student_id)
                           (attendance s))))
  end.

Definition calculate_grade (percentage : Q) : string :=
  if Qle_bool 90 percentage then "O"
  else if Qle_bool 80 percentage then "A+"
  else if Qle_bool 70 percentage then "A"
  else if Qle_bool 60 percentage then "B+"
  else if Qle_bool 50 percentage then "B"
  else if Qle_bool 40 percentage then "C"
  else "F".

(** The figures [generate_student_report_pdf] prints in sections 2 and 3
    of the report card. *)
Record report_figures : Type := {
  rep_total_marks : Q;
  rep_total_max_marks : Z;
  rep_percentage : string;
  rep_grade : string;
  rep_total_att_attended : Z;
  rep_total_att_held : Z;
  rep_final_att_pct : string
}.

Definition generate_student_report_pdf (s : db) (student_id : string)
  : res report_figures :=
  match get_student_details_and_data s student_id with
  | None => raise ValueError
  | Some (_, marks_data, attendance_data) =>
      let total_marks := sum_Q (map (fun m => snd m) marks_data) in
      let total_max_marks := sum_Z (map (fun m => snd (fst m)) marks_data) in
      let percentage := percent total_marks (inject_Z total_max_marks) in
      let grade := calculate_grade percentage in
      let total_att_held := sum_Z (map (fun a => snd (fst a)) attendance_data) in
      let total_att_attended := sum_Z (map (fun a => snd a) attendance_data) in
      let final_att_pct :=
        percent (inject_Z total_att_attended) (inject_Z total_att_held) in
      ret {| rep_total_marks := total_marks;
             rep_total_max_marks := total_max_marks;
             rep_percentage := format_2f percentage ++ "%";
             rep_grade := grade;
             rep_total_att_attended := total_att_attended;
             rep_total_att_held := total_att_held;
             rep_final_att_pct := format_2f final_att_pct ++ "%" |}
  end.

(** *** Runs of the program *)

(** The rows of [departments] after the first start. *)
Definition default_departments : list department :=
  match init_database new_file with
  | Some s => departments s
  | None => []
  end.

Section Runs.

Variable float_of_str : string -> res Q.
Variable int_of_str : string -> res Z.

(** The files the program can leave behind, starting in a new directory. *)
Inductive reachable : db -> Prop :=
| reach_init s :
    init_database new_file = Some s -> reachable s
| reach_restart s s' :
    reachable s -> init_database s = Some s' -> reachable s'
| reach_student s today student_id name dept_name year semester email
    program_type duration_years course_name marks_data attendance_data :
    reachable s ->
    reachable (snd (add_or_update_student float_of_str int_of_str today s
                      student_id name dept_name year semester email
                      program_type duration_years course_name marks_data
                      attendance_data))
| reach_subject s name code year semester max_marks :
    reachable s -> reachable (snd (add_subject s name code year semester max_marks))
| reach_settings s smtp_email smtp_app_password :
    reachable s -> reachable (save_email_settings s smtp_email smtp_app_password).

End Runs.

(** *** Sample data *)

(** Parsers that accept exactly the strings of decimal digits, on which
    they agree with [int] and [float]. *)
Fixpoint digits (acc : Z) (s : string) : res Z :=
  match s with
  | EmptyString => ret acc
  | String c s' =>
      let n := nat_of_ascii c in
      if ((48 <=? n) && (n <=? 57))%nat
      then digits (10 * acc + Z.of_nat (n - 48)) s'
      else raise ValueError
  end.

Definition int_of_digits (s : string) : res Z :=
  match s with
  | EmptyString => raise ValueError
  | _ => digits 0 s
  end.

Definition float_of_digits (s : string) : res Q :=
  z <- int_of_digits s ;; ret (inject_Z z).

Definition upsert := add_or_update_student float_of_digits int_of_digits.

(** The file after start-up and the registration of two subjects. *)
Definition two_subjects : db :=
  match init_database new_file with
  | Some s0 =>
      let s1 := snd (add_subject s0 "Mathematics" "MTH01" 1 1 100) in
      snd (add_subject s1 "Physics" "PHY01" 1 1 100)
  | None => new_file
  end.

Definition jan_feb : list (string * pyobj) :=
  [ ("Jan", Dict [("held", PyInt 20); ("attended", PyInt 18)]);
    ("Feb", Dict [("held", PyInt 20); ("attended", PyInt 10)]) ].

Definition s1_marks : list (string * pyval) :=
  [("MTH01", PyInt 80); ("PHY01", PyInt 70)].

Definition save_s1 (today : string) (s : db)
    (marks_data : list (string * pyval))
    (attendance_data : list (string * pyobj)) : (bool * message) * db :=
  upsert today s "S1" "Asha" "B.Sc. Physics" 1 1 "asha@example.org" "UG" 3
    "Physics" marks_data attendance_data.

(** Student S1 of the scenario of the specification. *)
Definition scenario : db :=
  snd (save_s1 "2024-06-01" two_subjects s1_marks jan_feb).

(** The same payload once more, on the same day and a day later. *)
Definition same_day : db := snd (save_s1 "2024-06-01" scenario s1_marks jan_feb).
Definition next_day : db := snd (save_s1 "2024-06-02" scenario s1_marks jan_feb).

(** S1 again, with a mark for a subject nobody registered. *)
Definition unknown_subject : (bool * message) * db :=
  save_s1 "2024-06-02" scenario [("XXX99", PyInt 50)] [].

(** A student of a department that is not in the table, with a blank
    mark and a month in which no class was held. *)
Definition s2_marks : list (string * pyval) :=
  [("MTH01", PyStr "  "); ("PHY01", PyStr "61")].

Definition s2_months : list (string * pyobj) :=
  [ ("Jan", Dict [("held", PyInt 0); ("attended", PyInt 0)]);
    ("Feb", Dict [("held", PyStr "20"); ("attended", PyInt 19)]) ].

Definition save_s2 (dept_name : string) : (bool * message) * db :=
  upsert "2024-06-01" two_subjects "S2" "Bala" dept_name 2 3 "" "UG" 3
    "Astrology" s2_marks s2_months.

End Web.

(** ** The desktop program: queries, statistics and the entry form *)

Module DesktopQueries.
Import Py Desktop.

(** [ORDER BY name] and [ORDER BY percentage DESC] *)
Definition by_name (a b : student) : bool := String.leb (name a) (name b).

Definition by_percentage_desc (a b : student) : bool :=
  Qle_bool (percentage b) (percentage a).

(** Every read method runs one SELECT inside the retry loop and hands
    back its rows, or [gives_up] once it stops retrying. *)
Definition select {A} (f : faults) (gives_up rows : A) : option A :=
  for_attempt (seq 0 max_retries) (fun attempt =>
    match get_connection f attempt with
    | inl _ => Return rows
    | inr (OperationalError text) => on_operational_error attempt text gives_up
    | inr _ => Return gives_up
    end).

Definition get_all_students (f : faults) (s : db) : option (list student) :=
  select f [] (Web.order_by by_name (students s)).

Definition get_students_by_year_dept (f : faults) (s : db)
    (year department : string) : option (list student) :=
  select f []
    (if String.eqb year "All" && String.eqb department "All" then
       Web.order_by by_name (students s)
     else if String.eqb year "All" then
       Web.order_by by_name
         (filter (fun r => String.eqb (Desktop.department r) department)
                 (students s))
     else if String.eqb department "All" then
       Web.order_by by_name
         (filter (fun r => String.eqb (Desktop.year r) year) (students s))
     else
       Web.order_by by_name
         (filter (fun r => String.eqb (Desktop.year r) year
                           && String.eqb (Desktop.department r) department)
                 (students s))).

(** [fetchone()] *)
Definition fetchone {A} (rows : list A) : option A :=
  match rows with
  | [] => None
  | row :: _ => Some row
  end.

Definition search_student (f : faults) (s : db) (student_id : string)
  : option (option student) :=
  select f None
    (fetchone (filter (fun r => String.eqb (Desktop.student_id r) student_id)
                      (students s))).

(** SQLite's LIKE: [%] stands for any run of characters, [_] for any
    one character, and a letter of the ASCII alphabet for itself in
    either case. *)
Definition lower_ascii (c : ascii) : ascii :=
  let n := nat_of_ascii c in
  if ((65 <=? n) && (n <=? 90))%nat then ascii_of_nat (n + 32) else c.

Definition like_char (p c : ascii) : bool :=
  Ascii.eqb (lower_ascii p) (lower_ascii c).

Fixpoint like (pattern : string) : string -> bool :=
  match pattern with
  | EmptyString =>
      fun text => match text with
                  | EmptyString => true
                  | String _ _ => false
                  end
  | String p pattern' =>
      if Ascii.eqb p "%" then
        fix any (text : string) : bool :=
          like pattern' text
          || match text with
             | EmptyString => false
             | String _ text' => any text'
             end
      else if Ascii.eqb p "_" then
        fun text => match text with
                    | EmptyString => false
                    | String _ text' => like pattern' text'
                    end
      else
        fun text => match text with
                    | EmptyString => false
                    | String c text' => like_char p c && like pattern' text'
                    end
  end.

(** [SELECT * FROM students WHERE name LIKE ?] with [f'%{name}%'] *)
Definition search_by_name (f : faults) (s : db) (name : string)
  : option (list student) :=
  select f []
    (filter (fun r => like ("%" ++ name ++ "%") (Desktop.name r)) (students s)).

Definition filter_by_status (f : faults) (s : db) (status : string)
  : option (list student) :=
  select f []
    (if String.eqb status "All" then
       Web.order_by by_percentage_desc (students s)
     else
       Web.order_by by_percentage_desc
         (filter (fun r => String.eqb (Desktop.status r) status) (students s))).

(** [SELECT * FROM email_settings WHERE id=1], as the dict the method
    builds from the row. *)
Definition get_email_settings (f : faults) (s : db)
  : option (option email_settings_row) :=
  select f None (email_settings s).

(** *** Statistics *)

Definition count {A} (p : A -> bool) (l : list A) : Z :=
  Z.of_nat (List.length (filter p l)).

(** [AVG] over a selection that is not empty. *)
Definition mean (l : list Q) : Q :=
  (Web.sum_Q l / inject_Z (Z.of_nat (List.length l)))%Q.

(** [GROUP BY key]: the distinct keys in ascending order, each with its
    rows. *)
Definition group_by (key : student -> string) (rows : list student)
  : list (string * list student) :=
  map (fun k => (k, filter (fun r => String.eqb (key r) k) rows))
      (Web.order_by String.leb (nodup string_dec (map key rows))).

Record statistics : Type := {
  total_students : Z;
  average_percentage : Q;
  status_distribution : list (string * Z);
  year_distribution : list (string * Z);
  department_stats : list (string * Z * Q);
  critical_count : Z;
  warning_count : Z;
  good_count : Z
}.

(** [round(avg, 2) if avg else 0], where [avg] is [None] over no row. *)
Definition shown_average (rows : list student) : Q :=
  match rows with
  | [] => 0%Q
  | _ =>
      let avg := mean (map percentage rows) in
      if Qeq_bool avg 0 then 0%Q else round2 avg
  end.

Definition statistics_of (rows : list student) : statistics :=
  {| total_students := Z.of_nat (List.length rows);
     average_percentage := shown_average rows;
     status_distribution :=
       map (fun g => (fst g, Z.of_nat (List.length (snd g))))
           (group_by status rows);
     year_distribution :=
       map (fun g => (fst g, Z.of_nat (List.length (snd g))))
           (group_by year rows);
     department_stats :=
       map (fun g => (fst g, Z.of_nat (List.length (snd g)),
                      mean (map percentage (snd g))))
           (group_by department rows);
     critical_count := count (fun r => Qlt_bool (percentage r) 60) rows;
     warning_count :=
       count (fun r => Qle_bool 60 (percentage r) && Qlt_bool (percentage r) 75)
             rows;
     good_count := count (fun r => Qle_bool 75 (percentage r)) rows |}.

Definition get_statistics (f : faults) (s : db) : option (option statistics) :=
  select f None (Some (statistics_of (students s))).

(** [d.get(key, 0)] on a distribution. *)
Definition dict_get (d : list (string * Z)) (key : string) : Z :=
  Web.next (map snd (filter (fun kv => String.eqb (fst kv) key) d)) 0.

(** *** The entry form ([AttendanceGUI]) *)




(** What a handler leaves on the two labels of the form, or in a
    message box. *)
Inductive labels : Type :=
| Unchanged
| Shown (pct_text pct_color status_text status_color : string).


Section Form.

Variable int_of_str : string -> res Z.

(** [calc_percentage], run on every key stroke in the two entries. *)
Definition calc_percentage (total_entry present_entry : string) : labels :=
  match (total <- int_of_str total_entry ;;
         present <- int_of_str present_entry ;;
         ret (total, present)) with
  | inl (total, present) =>
      if 0 <? total then
        let pct := (inject_Z present / inject_Z total * 100)%Q in
        if Qle_bool 75 pct then
          Shown (format_2f pct ++ "%") "green" "Good" "green"
        else if Qle_bool 60 pct then
          Shown (format_2f pct ++ "%") "orange" "Warning" "orange"
        else
          Shown (format_2f pct ++ "%") "red" "Critical" "red"
      else Unchanged
  | inr _ => Shown "0.00%" "blue" "N/A" "gray"
  end.


End Form.

(** The rank of a status among the three tiers. *)
Definition tier (status : string) : Z :=
  if String.eqb status "Good" then 2
  else if String.eqb status "Warning" then 1
  else 0.

(** The row [add_student] writes. *)
Definition stored_row (today student_id name email year department : string)
    (total present absent : Z) : student :=
  {| student_id := student_id; name := name; email := email; year := year;
     department := department; total_classes := total;
     present_classes := present; absent_classes := absent;
     percentage := code_percentage total present;
     status := get_status (code_percentage total present);
     created_date := today |}.



(** A call that works on the students table. *)
Definition on_students (c : call) : bool :=
  match c with
  | Save_email_settings _ _ _ _ _ => false
  | _ => true
  end.

(** *** Sample data *)

Definition locked : option string := Some "database is locked".

(** The file is held during the first two passes of the loop. *)
Definition locked_twice : faults :=
  fun attempt => if (attempt <? 2)%nat then locked else None.

(** The file is held for good. *)
Definition always_locked : faults := fun _ => locked.

Definition asha : list call :=
  [Add_student "2024-06-01" no_fault "S1" "Asha Devi" "" "1st Year"
     "B.Sc. Physics" 40 28 12].

Definition asha_file : db := run asha (init_database new_file).

End DesktopQueries.

(** ** The web program: subjects, settings and the mailing of reports *)

Module WebQueries.
Import Py Web.

(** [ORDER BY year, semester, subject_name] *)
Definition subject_order (a b : subject) : bool :=
  match Z.compare (sub_year a) (sub_year b) with
  | Lt => true
  | Gt => false
  | Eq =>
      match Z.compare (sub_semester a) (sub_semester b) with
      | Lt => true
      | Gt => false
      | Eq => String.leb (sub_subject_name a) (sub_subject_name b)
      end
  end.

Definition get_all_subjects (s : db) : list (string * string * Z * Z * Z) :=
  map (fun sub => (sub_subject_code sub, sub_subject_name sub, sub_year sub,
                   sub_semester sub, sub_max_marks sub))
      (order_by subject_order (subjects s)).

(** [SELECT smtp_email, smtp_app_password FROM settings WHERE id = 1] *)
Definition get_email_settings (s : db) : option string * option string :=
  match settings s with
  | Some row => (smtp_email row, smtp_app_password row)
  | None => (None, None)
  end.



(** *** Keys *)

(** The keys the schema declares PRIMARY KEY or UNIQUE are distinct, and
    so are the rowids of the detail rows. *)
Definition keys_unique (s : db) : Prop :=
  NoDup (map s_student_id (students s))
  /\ NoDup (map sub_subject_code (subjects s))
  /\ NoDup (map (fun m => (m_student_id m, m_subject_code m)) (marks s))
  /\ NoDup (map (fun a => (a_student_id a, a_month a)) (attendance s))
  /\ NoDup (map m_mark_id (marks s))
  /\ NoDup (map a_att_id (attendance s))
  /\ NoDup (map sub_subject_id (subjects s)).

(** *** Sample data *)


(** S2, of a department of the list, saved after S1. *)
Definition save_bala (marks_data : list (string * pyval)) : (bool * message) * db :=
  upsert "2024-06-02" scenario "S2" "Bala" "B.A. Tamil" 2 3 "" "UG" 3 "Tamil"
    marks_data s2_months.



End WebQueries.

(** * Properties *)

#[local] Arguments String.eqb : simpl never.

(** ** Numbers, the exception monad and lists *)

Module PyProofs.
Import Py.

Local Open Scope Q_scope.

Lemma Qle_bool_false (x y : Q) : Qle_bool x y = false <-> y < x.
Proof.
  split.
  - intros H. apply Qnot_le_lt. rewrite <- Qle_bool_iff. congruence.
  - intros H. destruct (Qle_bool x y) eqn:E; auto.
    apply Qle_bool_iff in E. lra.
Qed.

Lemma Qlt_bool_iff (x y : Q) : Qlt_bool x y = true <-> x < y.
Proof. unfold Qlt_bool. rewrite negb_true_iff. apply Qle_bool_false. Qed.

Lemma Qlt_bool_false (x y : Q) : Qlt_bool x y = false <-> y <= x.
Proof. unfold Qlt_bool. rewrite negb_false_iff. apply Qle_bool_iff. Qed.

(** Splits on one threshold test and records what it says about [p]. *)
Ltac threshold c p :=
  let E := fresh "E" in
  destruct (Qle_bool c p) eqn:E;
  [apply Qle_bool_iff in E | apply Qle_bool_false in E].

Lemma truediv_nonzero (a b : Q) : ~ b == 0 -> truediv a b = ret (a / b).
Proof.
  intros H. unfold truediv. destruct (Qeq_bool b 0) eqn:E; auto.
  apply Qeq_bool_iff in E. contradiction.
Qed.

Lemma bind_inl {A B} (m : res A) (k : A -> res B) (b : B) :
  Py.bind m k = inl b -> exists a, m = inl a /\ k a = inl b.
Proof. destruct m as [a | e]; simpl; [eauto | discriminate]. Qed.

Lemma bind_int_inv {A} (z : Z) (k : Z -> res A) (a : A) :
  Py.bind (bind_int z) k = inl a -> k z = inl a.
Proof.
  unfold bind_int. destruct (fits_int64 z); simpl; [auto | discriminate].
Qed.

Lemma res_rel_bind {A B A' B'} (R : A -> B -> Prop) (S : A' -> B' -> Prop)
    (m1 : res A) (m2 : res B) (k1 : A -> res A') (k2 : B -> res B') :
  res_rel R m1 m2 ->
  (forall a b, R a b -> res_rel S (k1 a) (k2 b)) ->
  res_rel S (Py.bind m1 k1) (Py.bind m2 k2).
Proof.
  destruct m1, m2; simpl; intros H Hk; try contradiction; auto.
Qed.

Lemma existsb_view {A B} (view : A -> B) (p : B -> bool) (l1 l2 : list A) :
  map view l1 = map view l2 ->
  existsb (fun x => p (view x)) l1 = existsb (fun x => p (view x)) l2.
Proof.
  revert l2. induction l1 as [| x l1 IH]; destruct l2 as [| y l2]; simpl;
    try discriminate; auto.
  intros H. injection H as Hx Hl. rewrite Hx. f_equal. auto.
Qed.

Lemma filter_none {A} (p : A -> bool) (l : list A) :
  (forall x, In x l -> p x = false) -> filter p l = [].
Proof.
  induction l as [| x l IH]; simpl; intros H; [reflexivity |].
  rewrite (H x) by auto. apply IH. auto.
Qed.


Lemma Forall2_left {A B} (R : A -> B -> Prop) (P : A -> Prop) l1 l2 :
  (forall a b, R a b -> P a) -> Forall2 R l1 l2 -> Forall P l1.
Proof. intros H. induction 1; constructor; eauto. Qed.




End PyProofs.

(** ** The desktop program *)

Module DesktopProofs.
Import Py Desktop PyProofs.

Local Open Scope Q_scope.

(** *** Status tiers and percentage *)

(** Claim C4.  Whatever the percentage, [get_status] answers with one of
    Good, Warning and Critical: Good exactly from 75 up, Warning exactly
    from 60 up to but not including 75, Critical exactly below 60; so 75
    is Good, 74.99 and 60 are Warning and 59.99 is Critical. *)
Theorem get_status_tiers (p : Q) :
  (get_status p = "Good" <-> 75 <= p)
  /\ (get_status p = "Warning" <-> 60 <= p /\ p < 75)
  /\ (get_status p = "Critical" <-> p < 60)
  /\ (get_status p = "Good" \/ get_status p = "Warning"
      \/ get_status p = "Critical")
  /\ get_status 75 = "Good" /\ get_status (7499 # 100) = "Warning"
  /\ get_status 60 = "Warning" /\ get_status (5999 # 100) = "Critical".
Proof.
  unfold get_status.
  threshold 75 p; [| threshold 60 p];
    repeat split; intros; try discriminate; try lra; auto.
Qed.

Lemma calculate_percentage_pos (total present : Q) :
  0 < total ->
  calculate_percentage total present = ret (round2 (present / total * 100)).
Proof.
  intros H. unfold calculate_percentage.
  rewrite (proj2 (Qlt_bool_iff 0 total) H).
  rewrite truediv_nonzero by lra. reflexivity.
Qed.

Lemma calculate_percentage_nonpos (total present : Q) :
  total <= 0 -> calculate_percentage total present = ret 0.
Proof.
  intros H. unfold calculate_percentage.
  rewrite (proj2 (Qlt_bool_false 0 total) H). reflexivity.
Qed.




Lemma calculate_percentage_Z (total present : Z) :
  calculate_percentage (inject_Z total) (inject_Z present)
  = ret (code_percentage total present).
Proof.
  unfold code_percentage. destruct (0 <? total)%Z eqn:E.
  - apply Z.ltb_lt in E. apply calculate_percentage_pos.
    change 0 with (inject_Z 0). rewrite <- Zlt_Qlt. exact E.
  - apply Z.ltb_ge in E. apply calculate_percentage_nonpos.
    change 0 with (inject_Z 0). rewrite <- Zle_Qle. exact E.
Qed.

(** *** The retry loop *)

Lemma for_attempt_inv {A} (P : A -> Prop) (range : list nat) (body : nat -> pass A) :
  (forall a r, body a = Return r -> P r) ->
  forall r, for_attempt range body = Some r -> P r.
Proof.
  intros Hb. induction range as [| a range IH]; simpl; intros r H.
  - discriminate.
  - destruct (body a) eqn:E.
    + injection H as <-. eauto.
    + auto.
Qed.

Lemma for_attempt_rel {A B} (R : A -> B -> Prop) (range : list nat)
    (b1 : nat -> pass A) (b2 : nat -> pass B) :
  (forall a, match b1 a, b2 a with
             | Return x, Return y => R x y
             | Continue, Continue => True
             | _, _ => False
             end) ->
  match for_attempt range b1, for_attempt range b2 with
  | Some x, Some y => R x y
  | None, None => True
  | _, _ => False
  end.
Proof.
  intros Hb. induction range as [| a range IH]; simpl; [exact I |].
  specialize (Hb a). destruct (b1 a), (b2 a); try contradiction; auto.
Qed.

Lemma on_operational_error_inv {A} (P : A -> Prop) attempt text (x r : A) :
  P x -> on_operational_error attempt text x = Return r -> P r.
Proof.
  unfold on_operational_error. intros Hx.
  destruct (_ && _); intros H; [discriminate | injection H as <-; exact Hx].
Qed.

(** The loop of every method comes to an end with a value. *)
Lemma for_attempt_returns {A} (body : nat -> pass A) :
  (forall a, body a = Continue -> (a < max_retries - 1)%nat) ->
  exists r, for_attempt (seq 0 max_retries) body = Some r.
Proof.
  intros H. simpl.
  destruct (body 0%nat) eqn:E0; [eauto |].
  destruct (body 1%nat) eqn:E1; [eauto |].
  destruct (body 2%nat) eqn:E2; [eauto |].
  apply H in E2. simpl in E2. lia.
Qed.

Lemma on_operational_error_continue {A} attempt text (x : A) :
  on_operational_error attempt text x = Continue ->
  (attempt < max_retries - 1)%nat.
Proof.
  unfold on_operational_error.
  destruct (contains "locked" text), (attempt <? max_retries - 1)%nat eqn:E;
    simpl; try discriminate.
  intros _. apply Nat.ltb_lt, E.
Qed.

(** No method falls out of its loop. *)
Lemma add_student_returns today f s sid name email year dept total present absent :
  exists r,
    add_student today f s sid name email year dept total present absent = Some r.
Proof.
  unfold add_student. apply for_attempt_returns. intros a.
  destruct (add_student_try _ _ _ _ _ _ _ _ _ _ _ _) as [s' | e]; simpl; [discriminate |].
  destruct e; simpl; try discriminate. apply on_operational_error_continue.
Qed.

Lemma update_student_returns f s sid name email year dept total present absent :
  exists r,
    update_student f s sid name email year dept total present absent = Some r.
Proof.
  unfold update_student. apply for_attempt_returns. intros a.
  destruct (update_student_try _ _ _ _ _ _ _ _ _ _ _) as [s' | e]; simpl;
    [discriminate |].
  destruct e; simpl; try discriminate. apply on_operational_error_continue.
Qed.

Lemma delete_student_returns f s sid :
  exists r, delete_student f s sid = Some r.
Proof.
  unfold delete_student. apply for_attempt_returns. intros a.
  destruct (delete_student_try _ _ _ _) as [s' | e]; simpl; [discriminate |].
  destruct e; simpl; try discriminate. apply on_operational_error_continue.
Qed.

Lemma save_email_settings_returns f s se sp hod t :
  exists r, save_email_settings f s se sp hod t = Some r.
Proof.
  unfold save_email_settings. apply for_attempt_returns. intros a.
  destruct (save_email_settings_try _ _ _ _ _ _ _) as [s' | e]; simpl; [discriminate |].
  destruct e; simpl; try discriminate. apply on_operational_error_continue.
Qed.

(** *** What the stored aggregates satisfy *)

(** A handler that returns after the body has raised hands back the
    file the method started from. *)
Ltac caught Hs :=
  match goal with
  | e : exn |- _ =>
      destruct e; simpl;
      try (intros H; injection H as <-; exact Hs);
      apply (on_operational_error_inv (fun r => all_consistent (snd r))); exact Hs
  end.

Lemma add_student_inv today f s sid name email year dept total present absent r :
  all_consistent s ->
  add_student today f s sid name email year dept total present absent = Some r ->
  all_consistent (snd r).
Proof.
  intros Hs H. revert r H. unfold add_student.
  apply (for_attempt_inv (fun r => all_consistent (snd r))).
  intros a r.
  destruct (add_student_try today f a s sid name email year dept total present absent)
    as [s' | e] eqn:E; [| caught Hs].
  intros H; injection H as <-. simpl.
  unfold add_student_try in E. rewrite calculate_percentage_Z in E. simpl in E.
  destruct (get_connection f a) as [[] | e]; simpl in E; [| discriminate].
  unfold insert_student in E. simpl in E.
  do 3 (apply bind_int_inv in E; cbv beta in E).
  destruct (has_student sid s); [discriminate |]. injection E as <-.
  unfold all_consistent; simpl. apply Forall_app. split; [exact Hs |].
  constructor; [| constructor]. split; reflexivity.
Qed.

Lemma update_row_consistent sid name email year dept total present absent r :
  consistent r ->
  consistent (update_row sid name email year dept total present absent
                (code_percentage total present)
                (get_status (code_percentage total present)) r).
Proof.
  intros Hr. unfold update_row. destruct (String.eqb _ _); [| exact Hr].
  split; reflexivity.
Qed.

Lemma update_student_inv f s sid name email year dept total present absent r :
  all_consistent s ->
  update_student f s sid name email year dept total present absent = Some r ->
  all_consistent (snd r).
Proof.
  intros Hs H. revert r H. unfold update_student.
  apply (for_attempt_inv (fun r => all_consistent (snd r))).
  intros a r.
  destruct (update_student_try f a s sid name email year dept total present absent)
    as [s' | e] eqn:E; [| caught Hs].
  intros H; injection H as <-. simpl.
  unfold update_student_try in E. rewrite calculate_percentage_Z in E. simpl in E.
  destruct (get_connection f a) as [[] | e]; simpl in E; [| discriminate].
  do 3 (apply bind_int_inv in E; cbv beta in E). injection E as <-.
  unfold all_consistent; simpl. apply Forall_forall. intros r Hr.
  apply in_map_iff in Hr as (r0 & <- & Hr0).
  apply update_row_consistent.
  unfold all_consistent in Hs. rewrite Forall_forall in Hs. auto.
Qed.

Lemma delete_student_inv f s sid r :
  all_consistent s -> delete_student f s sid = Some r -> all_consistent (snd r).
Proof.
  intros Hs H. revert r H. unfold delete_student.
  apply (for_attempt_inv (fun r => all_consistent (snd r))).
  intros a r.
  destruct (delete_student_try f a s sid) as [s' | e] eqn:E; [| caught Hs].
  intros H; injection H as <-. simpl.
  unfold delete_student_try in E.
  destruct (get_connection f a) as [[] | e]; simpl in E; [| discriminate].
  injection E as <-. unfold all_consistent; simpl.
  apply Forall_forall. intros r Hr. apply filter_In in Hr as [Hr _].
  unfold all_consistent in Hs. rewrite Forall_forall in Hs. auto.
Qed.

Lemma save_email_settings_students f s se sp hod t r :
  save_email_settings f s se sp hod t = Some r -> students (snd r) = students s.
Proof.
  intros H. revert r H. unfold save_email_settings.
  apply (for_attempt_inv (fun r => students (snd r) = students s)).
  intros a r.
  destruct (save_email_settings_try f a s se sp hod t) as [s' | e] eqn:E.
  - intros H; injection H as <-. simpl.
    unfold save_email_settings_try in E.
    destruct (get_connection f a) as [[] | e]; simpl in E; [| discriminate].
    injection E as <-. reflexivity.
  - destruct e; simpl; try (intros H; injection H as <-; reflexivity).
    apply (on_operational_error_inv (fun r => students (snd r) = students s)).
    reflexivity.
Qed.

Lemma save_email_settings_exec f s se sp hod t :
  students (exec s (Save_email_settings f se sp hod t)) = students s.
Proof.
  simpl. destruct (save_email_settings f s se sp hod t) as [[b s'] |] eqn:E; auto.
  apply (save_email_settings_students _ _ _ _ _ _ _ E).
Qed.

Lemma exec_inv s c : all_consistent s -> all_consistent (exec s c).
Proof.
  intros Hs. destruct c.
  - simpl.
    destruct (add_student _ _ _ _ _ _ _ _ _ _ _) as [[m s'] |] eqn:E; [| exact Hs].
    apply (add_student_inv _ _ _ _ _ _ _ _ _ _ _ _ Hs E).
  - simpl.
    destruct (update_student _ _ _ _ _ _ _ _ _ _) as [[m s'] |] eqn:E; [| exact Hs].
    apply (update_student_inv _ _ _ _ _ _ _ _ _ _ _ Hs E).
  - simpl.
    destruct (delete_student _ _ _) as [[m s'] |] eqn:E; [| exact Hs].
    apply (delete_student_inv _ _ _ _ Hs E).
  - unfold all_consistent. rewrite save_email_settings_exec. exact Hs.
Qed.

Lemma run_inv calls s : all_consistent s -> all_consistent (run calls s).
Proof.
  revert s. induction calls as [| c calls IH]; simpl; intros s Hs; [exact Hs |].
  apply IH, exec_inv, Hs.
Qed.




(** *** The saved threshold *)

(** After the body has raised, both runs take the same handler. *)
Ltac same_handlers :=
  match goal with
  | e : exn |- _ =>
      destruct e; simpl; auto;
      unfold on_operational_error; destruct (_ && _); simpl; auto
  end.

Lemma has_student_students s1 s2 sid :
  students s1 = students s2 -> has_student sid s1 = has_student sid s2.
Proof. unfold has_student. intros ->. reflexivity. Qed.

Lemma add_student_students today f s1 s2 sid name email year dept total present absent :
  students s1 = students s2 ->
  match add_student today f s1 sid name email year dept total present absent,
        add_student today f s2 sid name email year dept total present absent with
  | Some x, Some y => students (snd x) = students (snd y)
  | None, None => True
  | _, _ => False
  end.
Proof.
  intros Hs. unfold add_student. apply for_attempt_rel. intros a.
  unfold add_student_try. rewrite calculate_percentage_Z. simpl.
  destruct (get_connection f a) as [[] | e]; simpl; [| same_handlers].
  unfold insert_student. simpl.
  destruct (bind_int total) as [? | e]; simpl; [| same_handlers].
  destruct (bind_int present) as [? | e]; simpl; [| same_handlers].
  destruct (bind_int absent) as [? | e]; simpl; [| same_handlers].
  rewrite (has_student_students s1 s2 sid Hs).
  destruct (has_student sid s2); simpl; [exact Hs |]. rewrite Hs. reflexivity.
Qed.

Lemma update_student_students f s1 s2 sid name email year dept total present absent :
  students s1 = students s2 ->
  match update_student f s1 sid name email year dept total present absent,
        update_student f s2 sid name email year dept total present absent with
  | Some x, Some y => students (snd x) = students (snd y)
  | None, None => True
  | _, _ => False
  end.
Proof.
  intros Hs. unfold update_student. apply for_attempt_rel. intros a.
  unfold update_student_try. rewrite calculate_percentage_Z. simpl.
  destruct (get_connection f a) as [[] | e]; simpl; [| same_handlers].
  destruct (bind_int total) as [? | e]; simpl; [| same_handlers].
  destruct (bind_int present) as [? | e]; simpl; [| same_handlers].
  destruct (bind_int absent) as [? | e]; simpl; [| same_handlers].
  rewrite Hs. reflexivity.
Qed.

Lemma delete_student_students f s1 s2 sid :
  students s1 = students s2 ->
  match delete_student f s1 sid, delete_student f s2 sid with
  | Some x, Some y => students (snd x) = students (snd y)
  | None, None => True
  | _, _ => False
  end.
Proof.
  intros Hs. unfold delete_student. apply for_attempt_rel. intros a.
  unfold delete_student_try.
  destruct (get_connection f a) as [[] | e]; simpl; [| same_handlers].
  rewrite Hs. reflexivity.
Qed.

Lemma exec_students s1 s2 c1 c2 :
  students s1 = students s2 -> same_but_threshold c1 c2 ->
  students (exec s1 c1) = students (exec s2 c2).
Proof.
  intros Hs Hc. destruct Hc as [c | f se sp hod t1 t2].
  2:{ rewrite !save_email_settings_exec. exact Hs. }
  destruct c as [today f sid name email year dept total present absent
                | f sid name email year dept total present absent
                | f sid
                | f se sp hod t].
  - simpl.
    pose proof (add_student_students today f s1 s2 sid name email year
                  dept total present absent Hs) as H.
    destruct (add_student _ _ s1 _ _ _ _ _ _ _ _) as [[? ?] |],
             (add_student _ _ s2 _ _ _ _ _ _ _ _) as [[? ?] |];
      simpl in *; try contradiction; auto.
  - simpl.
    pose proof (update_student_students f s1 s2 sid name email year
                  dept total present absent Hs) as H.
    destruct (update_student _ s1 _ _ _ _ _ _ _ _) as [[? ?] |],
             (update_student _ s2 _ _ _ _ _ _ _ _) as [[? ?] |];
      simpl in *; try contradiction; auto.
  - simpl.
    pose proof (delete_student_students f s1 s2 sid Hs) as H.
    destruct (delete_student _ s1 _) as [[? ?] |],
             (delete_student _ s2 _) as [[? ?] |];
      simpl in *; try contradiction; auto.
  - rewrite !save_email_settings_exec. exact Hs.
Qed.

Lemma run_students calls1 calls2 s1 s2 :
  Forall2 same_but_threshold calls1 calls2 -> students s1 = students s2 ->
  students (run calls1 s1) = students (run calls2 s2).
Proof.
  intros H. revert s1 s2.
  induction H as [| c1 c2 l1 l2 Hc _ IH]; simpl; intros s1 s2 Hs; [exact Hs |].
  apply IH, exec_students; assumption.
Qed.

(** Claim C9.  Two runs of the program that differ only in the
    threshold handed to [save_email_settings] leave the same [students]
    table, hence the same status for every student; and every stored
    status is [get_status] of the stored percentage, which reads nothing
    but that percentage and the constants 75 and 60. *)
Theorem status_ignores_threshold (calls1 calls2 : list call) :
  Forall2 same_but_threshold calls1 calls2 ->
  students (run calls1 (init_database new_file))
  = students (run calls2 (init_database new_file))
  /\ Forall (fun r => status r = get_status (percentage r))
            (students (run calls1 (init_database new_file))).
Proof.
  intros H. split.
  - apply run_students; [exact H | reflexivity].
  - assert (Hi : all_consistent (run calls1 (init_database new_file)))
      by (apply run_inv; constructor).
    unfold all_consistent in Hi. eapply Forall_impl; [| exact Hi].
    intros r [_ Hr]. exact Hr.
Qed.

Lemma status_ignores_threshold_witness :
  Forall2 same_but_threshold (threshold_run 75) (threshold_run (1 # 2))
  /\ email_settings (run (threshold_run 75) (init_database new_file))
     <> email_settings (run (threshold_run (1 # 2)) (init_database new_file))
  /\ students (run (threshold_run 75) (init_database new_file))
     = students (run (threshold_run (1 # 2)) (init_database new_file))
  /\ map status (students (run (threshold_run (1 # 2)) (init_database new_file)))
     = ["Warning"].
Proof.
  assert (H : Forall2 same_but_threshold (threshold_run 75) (threshold_run (1 # 2))).
  { constructor; [apply sbt_save |]. constructor; [apply sbt_refl | constructor]. }
  split; [exact H |]. split; [discriminate |]. split.
  - apply (status_ignores_threshold _ _ H).
  - reflexivity.
Defined.

End DesktopProofs.

(** ** The web program *)

Module WebProofs.
Import Py Web PyProofs.

Lemma set_marks_eta (s : db) :
  s = set_marks (marks s) (seq_marks (sequence s)) s.
Proof. destruct s as [? ? ? ? ? ? []]. reflexivity. Qed.

Lemma set_attendance_eta (s : db) :
  s = set_attendance (attendance s) (seq_attendance (sequence s)) s.
Proof. destruct s as [? ? ? ? ? ? []]. reflexivity. Qed.

Lemma insert_mark_inl conn sid code v s s' :
  insert_mark conn sid code v s = inl s' ->
  exists id,
    s' = set_marks (marks s ++ [{| m_mark_id := id; m_student_id := sid;
                                   m_subject_code := code; m_marks := v |}]) id s.
Proof.
  unfold insert_mark. destruct (existsb _ _); [discriminate |].
  destruct (_ && _); [discriminate |].
  intros H; injection H as <-. eauto.
Qed.

Lemma insert_attendance_inl conn sid month held attended s s' :
  insert_attendance conn sid month held attended s = inl s' ->
  exists id,
    s' = set_attendance
           (attendance s ++ [{| a_att_id := id; a_student_id := sid;
                                a_month := month; a_classes_held := held;
                                a_classes_attended := attended |}]) id s.
Proof.
  unfold insert_attendance. intros H.
  apply bind_inl in H as (_ & _ & H). apply bind_inl in H as (_ & _ & H).
  destruct (existsb _ _); [discriminate |].
  destruct (_ && _); [discriminate |].
  injection H as <-. eauto.
Qed.

Lemma insert_mark_sim sid code v s t :
  same_details s t ->
  res_rel same_details (insert_mark sqlite3_connect sid code v s)
                       (insert_mark sqlite3_connect sid code v t).
Proof.
  intros [Hm Ha]. unfold insert_mark. simpl.
  pose proof (existsb_view mark_view
                (fun v => String.eqb (fst (fst v)) sid
                          && String.eqb (snd (fst v)) code) _ _ Hm) as He.
  cbn in He. rewrite He.
  destruct (existsb _ (marks t)); simpl; [reflexivity |].
  split; simpl; [| exact Ha].
  rewrite !map_app, Hm. reflexivity.
Qed.

Lemma insert_attendance_sim sid month held attended s t :
  same_details s t ->
  res_rel same_details (insert_attendance sqlite3_connect sid month held attended s)
                       (insert_attendance sqlite3_connect sid month held attended t).
Proof.
  intros [Hm Ha]. unfold insert_attendance.
  destruct (bind_int held); simpl; [| reflexivity].
  destruct (bind_int attended); simpl; [| reflexivity].
  pose proof (existsb_view attendance_view
                (fun v => String.eqb (fst (fst (fst v))) sid
                          && String.eqb (snd (fst (fst v))) month) _ _ Ha) as He.
  cbn in He. rewrite He.
  destruct (existsb _ (attendance t)); simpl; [reflexivity |].
  split; simpl; [exact Hm |].
  rewrite !map_app, Ha. reflexivity.
Qed.

Lemma not_of_student_self sid : not_of_student sid sid = false.
Proof. unfold not_of_student. rewrite String.eqb_refl. reflexivity. Qed.

Section Owner.

Context {A : Type} (owner : A -> string) (sid : string).

Lemma own_of_others (l : list A) :
  filter (fun x => String.eqb (owner x) sid)
         (filter (fun x => not_of_student sid (owner x)) l) = [].
Proof.
  induction l as [| x l IH]; simpl; [reflexivity |].
  unfold not_of_student at 1.
  destruct (String.eqb (owner x) sid) eqn:E; simpl; [exact IH |].
  rewrite E. exact IH.
Qed.

Lemma others_of_others (l : list A) :
  filter (fun x => not_of_student sid (owner x))
         (filter (fun x => not_of_student sid (owner x)) l)
  = filter (fun x => not_of_student sid (owner x)) l.
Proof.
  induction l as [| x l IH]; simpl; [reflexivity |].
  destruct (not_of_student sid (owner x)) eqn:E; simpl; [rewrite E |];
    rewrite IH; reflexivity.
Qed.


Lemma others_of_own (l : list A) :
  Forall (fun x => owner x = sid) l ->
  filter (fun x => not_of_student sid (owner x)) l = [].
Proof.
  induction 1 as [| x l Hx _ IH]; simpl; [reflexivity |].
  unfold not_of_student at 1. rewrite Hx, String.eqb_refl. exact IH.
Qed.

End Owner.

Lemma insert_by_In {A} (le : A -> A -> bool) (x y : A) (l : list A) :
  In x (insert_by le y l) -> x = y \/ In x l.
Proof.
  induction l as [| z l IH]; simpl.
  - intros [<- | []]. auto.
  - destruct (le y z); simpl; intuition auto.
Qed.

Lemma order_by_In {A} (le : A -> A -> bool) (x : A) (l : list A) :
  In x (order_by le l) -> In x l.
Proof.
  induction l as [| y l IH]; simpl; [auto |].
  intros H. apply insert_by_In in H as [-> | H]; auto.
Qed.

Lemma find_dept_code_unknown (s : db) (dept_name : string) :
  (forall d, In d (departments s) -> d_dept_name d <> dept_name) ->
  find_dept_code s dept_name = "OTH99".
Proof.
  intros H. unfold find_dept_code, get_all_departments.
  rewrite filter_none; [reflexivity |].
  intros [code name] Hin. apply in_map_iff in Hin as (d & Hd & Hin).
  injection Hd as <- <-. apply order_by_In in Hin. simpl.
  apply String.eqb_neq. auto.
Qed.

Lemma has_department_In (code : string) (s : db) :
  has_department code s = false ->
  forall d, In d (departments s) -> d_dept_code d <> code.
Proof.
  unfold has_department. intros H d Hd Hc.
  assert (existsb (fun d => String.eqb (d_dept_code d) code) (departments s) = true).
  { apply existsb_exists. exists d. split; [exact Hd |]. apply String.eqb_eq, Hc. }
  congruence.
Qed.

Lemma add_subject_departments s name code year semester max_marks :
  departments (snd (add_subject s name code year semester max_marks)) = departments s.
Proof.
  unfold add_subject.
  destruct (bind_int year); simpl; [| destruct e; reflexivity].
  destruct (bind_int semester); simpl; [| destruct e; reflexivity].
  destruct (bind_int max_marks); simpl; [| destruct e; reflexivity].
  destruct (has_subject code s); reflexivity.
Qed.

Lemma save_email_settings_departments s e p :
  departments (save_email_settings s e p) = departments s.
Proof. unfold save_email_settings. destruct (settings s); reflexivity. Qed.

Section Upsert.

Variable float_of_str : string -> res Q.
Variable int_of_str : string -> res Z.

Lemma save_marks_inl conn sid items s s' :
  save_marks float_of_str conn sid items s = inl s' ->
  exists rows n,
    s' = set_marks (marks s ++ rows) n s
    /\ Forall2 (mark_from float_of_str sid) rows (filter mark_wanted items).
Proof.
  revert s. induction items as [| [code v] items IH]; simpl; intros s H.
  - injection H as <-. exists [], (seq_marks (sequence s)).
    rewrite app_nil_r. split; [apply set_marks_eta | constructor].
  - apply bind_inl in H as (s1 & H1 & H).
    apply IH in H as (rows & n & -> & Hrows).
    unfold mark_wanted at 1. simpl.
    destruct (is_not_none v && str_strip_nonempty v).
    + apply bind_inl in H1 as (q & Hq & H1).
      apply insert_mark_inl in H1 as (id & ->).
      eexists (_ :: rows), n. simpl. rewrite <- app_assoc. split; [reflexivity |].
      constructor; [| exact Hrows]. repeat split; assumption.
    + injection H1 as <-. eauto.
Qed.

Lemma save_months_inl conn sid items s s' :
  save_months int_of_str conn sid items s = inl s' ->
  exists rows n,
    s' = set_attendance (attendance s ++ rows) n s
    /\ Forall2 (month_from int_of_str sid) rows
               (filter (month_wanted int_of_str) items).
Proof.
  revert s. induction items as [| [month data] items IH]; simpl; intros s H.
  - injection H as <-. exists [], (seq_attendance (sequence s)).
    rewrite app_nil_r. split; [apply set_attendance_eta | constructor].
  - apply bind_inl in H as (s1 & H1 & H).
    apply IH in H as (rows & n & -> & Hrows).
    apply bind_inl in H1 as (h & Hh & H1).
    apply bind_inl in H1 as (held & Hheld & H1).
    apply bind_inl in H1 as (a & Ha & H1).
    apply bind_inl in H1 as (attended & Hatt & H1).
    assert (Hmh : month_held int_of_str (month, data) = inl held).
    { unfold month_held. simpl. rewrite Hh. exact Hheld. }
    assert (Hma : month_attended int_of_str (month, data) = inl attended).
    { unfold month_attended. simpl. rewrite Ha. exact Hatt. }
    unfold month_wanted at 1. rewrite Hmh.
    destruct (0 <? held).
    + apply insert_attendance_inl in H1 as (id & ->).
      eexists (_ :: rows), n. simpl. rewrite <- app_assoc. split; [reflexivity |].
      constructor; [| exact Hrows]. repeat split; assumption.
    + injection H1 as <-. eauto.
Qed.

Lemma save_marks_sim sid items s t :
  same_details s t ->
  res_rel same_details (save_marks float_of_str sqlite3_connect sid items s)
                       (save_marks float_of_str sqlite3_connect sid items t).
Proof.
  revert s t. induction items as [| [code v] items IH]; simpl; intros s t H.
  - exact H.
  - apply res_rel_bind with (R := same_details); [| intros; apply IH; assumption].
    destruct (is_not_none v && str_strip_nonempty v); [| exact H].
    destruct (float float_of_str v); simpl; [| reflexivity].
    apply insert_mark_sim, H.
Qed.

Lemma save_months_sim sid items s t :
  same_details s t ->
  res_rel same_details (save_months int_of_str sqlite3_connect sid items s)
                       (save_months int_of_str sqlite3_connect sid items t).
Proof.
  revert s t. induction items as [| [month data] items IH]; simpl; intros s t H.
  - exact H.
  - apply res_rel_bind with (R := same_details); [| intros; apply IH; assumption].
    destruct (get data "held" (PyInt 0)) as [h |]; simpl; [| reflexivity].
    destruct (int int_of_str h) as [held |]; simpl; [| reflexivity].
    destruct (get data "attended" (PyInt 0)) as [a |]; simpl; [| reflexivity].
    destruct (int int_of_str a) as [attended |]; simpl; [| reflexivity].
    destruct (0 <? held); [| exact H].
    apply insert_attendance_sim, H.
Qed.

(** With the pragma off, the statements of an upsert come down to three
    bindings, the replacement of the student row, the two deletes and
    the two loops. *)
Lemma save_student_unenforced today s sid name dept_name year semester email
    program_type duration_years course_name marks_data attendance_data :
  save_student float_of_str int_of_str sqlite3_connect today s sid name
    dept_name year semester email program_type duration_years course_name
    marks_data attendance_data
  = (_ <- bind_int year ;;
     _ <- bind_int semester ;;
     _ <- bind_int duration_years ;;
     s4 <- save_marks float_of_str sqlite3_connect sid marks_data
             (delete_attendance sid (delete_marks sid
                (set_students
                   (filter (fun x => not_of_student sid (s_student_id x)) (students s)
                    ++ [{| s_student_id := sid; s_name := name;
                           s_dept_code := find_dept_code s dept_name;
                           s_year := year; s_semester := semester;
                           s_email := email; s_program_type := program_type;
                           s_duration_years := duration_years;
                           s_course_name := course_name;
                           s_created_date := today |}]) s))) ;;
     save_months int_of_str sqlite3_connect sid attendance_data s4).
Proof.
  unfold save_student, insert_or_replace_student. simpl.
  destruct (bind_int year); simpl; [| reflexivity].
  destruct (bind_int semester); simpl; [| reflexivity].
  destruct (bind_int duration_years); simpl; reflexivity.
Qed.

Lemma save_student_inl today s sid name dept_name year semester email
    program_type duration_years course_name marks_data attendance_data s' :
  save_student float_of_str int_of_str sqlite3_connect today s sid name
    dept_name year semester email program_type duration_years course_name
    marks_data attendance_data = inl s' ->
  exists mrows n1 arows n2,
    s' = set_attendance
           (filter (fun a => not_of_student sid (a_student_id a)) (attendance s)
            ++ arows) n2
           (set_marks
              (filter (fun m => not_of_student sid (m_student_id m)) (marks s)
               ++ mrows) n1
              (set_students
                 (filter (fun x => not_of_student sid (s_student_id x)) (students s)
                  ++ [{| s_student_id := sid; s_name := name;
                         s_dept_code := find_dept_code s dept_name;
                         s_year := year; s_semester := semester;
                         s_email := email; s_program_type := program_type;
                         s_duration_years := duration_years;
                         s_course_name := course_name;
                         s_created_date := today |}]) s))
    /\ Forall2 (mark_from float_of_str sid) mrows (filter mark_wanted marks_data)
    /\ Forall2 (month_from int_of_str sid) arows
                (filter (month_wanted int_of_str) attendance_data).
Proof.
  rewrite save_student_unenforced. intros H.
  do 3 (apply bind_inl in H as (_ & _ & H)).
  apply bind_inl in H as (s4 & H4 & H).
  apply save_marks_inl in H4 as (mrows & n1 & -> & Hm).
  apply save_months_inl in H as (arows & n2 & -> & Ha).
  exists mrows, n1, arows, n2. split; [reflexivity | split; assumption].
Qed.

Lemma mark_from_owner sid m item :
  mark_from float_of_str sid m item -> m_student_id m = sid.
Proof. intros [H _]. exact H. Qed.

Lemma month_from_owner sid a item :
  month_from int_of_str sid a item -> a_student_id a = sid.
Proof. intros [H _]. exact H. Qed.



Lemma save_student_sim today1 today2 s t sid name1 name2 dept1 dept2 year
    semester email1 email2 program1 program2 duration_years course1 course2
    marks_data attendance_data :
  same_details (delete_attendance sid (delete_marks sid s))
               (delete_attendance sid (delete_marks sid t)) ->
  res_rel same_details
    (save_student float_of_str int_of_str sqlite3_connect today1 s sid name1
       dept1 year semester email1 program1 duration_years course1 marks_data
       attendance_data)
    (save_student float_of_str int_of_str sqlite3_connect today2 t sid name2
       dept2 year semester email2 program2 duration_years course2 marks_data
       attendance_data).
Proof.
  intros H. rewrite !save_student_unenforced.
  destruct (bind_int year); simpl; [| reflexivity].
  destruct (bind_int semester); simpl; [| reflexivity].
  destruct (bind_int duration_years); simpl; [| reflexivity].
  apply res_rel_bind with (R := same_details).
  - apply save_marks_sim. exact H.
  - intros a b Hab. apply save_months_sim, Hab.
Qed.

Lemma same_details_refl s : same_details s s.
Proof. split; reflexivity. Qed.

(** Claim C2, as the code has it.  A second upsert with the payload of
    the first, on whatever day, ends as the first did and leaves the same
    Mark and Attendance records in the same order (none twice), the same
    departments, subjects and settings, and the same student rows but for
    [created_date]; when both calls fall on the same day the student rows
    are the same altogether. *)
Theorem upsert_twice today1 today2 s sid name dept_name year semester email
    program_type duration_years course_name marks_data attendance_data :
  let r1 := add_or_update_student float_of_str int_of_str today1 s sid name
              dept_name year semester email program_type duration_years
              course_name marks_data attendance_data in
  let r2 := add_or_update_student float_of_str int_of_str today2 (snd r1) sid
              name dept_name year semester email program_type duration_years
              course_name marks_data attendance_data in
  fst r2 = fst r1
  /\ same_details (snd r2) (snd r1)
  /\ map undated (students (snd r2)) = map undated (students (snd r1))
  /\ (today1 = today2 -> students (snd r2) = students (snd r1))
  /\ departments (snd r2) = departments (snd r1)
  /\ subjects (snd r2) = subjects (snd r1)
  /\ settings (snd r2) = settings (snd r1).
Proof.
  unfold add_or_update_student.
  destruct (save_student _ _ _ today1 _ _ _ _ _ _ _ _ _ _ _ _) as [s' | e] eqn:E1.
  - simpl.
    pose proof (save_student_inl _ _ _ _ _ _ _ _ _ _ _ _ _ _ E1)
      as (mrows & n1 & arows & n2 & Hs' & Hm & Ha).
    assert (Hsim : same_details (delete_attendance sid (delete_marks sid s'))
                                (delete_attendance sid (delete_marks sid s))).
    { rewrite Hs'. split; simpl; rewrite filter_app, others_of_others.
      - rewrite (others_of_own m_student_id sid mrows), app_nil_r; [reflexivity |].
        eapply Forall2_left; [apply mark_from_owner | exact Hm].
      - rewrite (others_of_own a_student_id sid arows), app_nil_r; [reflexivity |].
        eapply Forall2_left; [apply month_from_owner | exact Ha]. }
    pose proof (save_student_sim today2 today1 s' s sid name name dept_name
                  dept_name year semester email email program_type program_type
                  duration_years course_name course_name marks_data
                  attendance_data Hsim) as Hrel.
    rewrite E1 in Hrel.
    destruct (save_student _ _ _ today2 _ _ _ _ _ _ _ _ _ _ _ _) as [s'' | e] eqn:E2;
      simpl in Hrel; [| contradiction].
    simpl. split; [reflexivity | split; [exact Hrel |]].
    apply save_student_inl in E2 as (mrows2 & k1 & arows2 & k2 & -> & _ & _).
    rewrite Hs'. simpl.
    rewrite !filter_app, !others_of_others. simpl.
    rewrite !not_of_student_self, !app_nil_r.
    repeat split; try reflexivity.
    + rewrite !map_app. reflexivity.
    + intros ->. reflexivity.
  - assert (Hs : snd (match e with
                      | IntegrityError _ =>
                          (false,
                           Text ("Error: Student ID " ++ sid
                                 ++ " already exists or data is corrupt."), s)
                      | _ => (false, TextStrOf "Database error during save: " e, s)
                      end) = s) by (destruct e; reflexivity).
    rewrite Hs.
    pose proof (save_student_sim today2 today1 s s sid name name dept_name
                  dept_name year semester email email program_type program_type
                  duration_years course_name course_name marks_data
                  attendance_data (same_details_refl _)) as Hrel.
    rewrite E1 in Hrel.
    destruct (save_student _ _ _ today2 _ _ _ _ _ _ _ _ _ _ _ _) as [s'' | e2] eqn:E2;
      simpl in Hrel; [contradiction | subst e2].
    rewrite Hs. repeat split; try reflexivity. 
Qed.

Lemma upsert_departments today s sid name dept_name year semester email
    program_type duration_years course_name marks_data attendance_data :
  departments (snd (add_or_update_student float_of_str int_of_str today s sid
                      name dept_name year semester email program_type
                      duration_years course_name marks_data attendance_data))
  = departments s.
Proof.
  unfold add_or_update_student.
  destruct (save_student _ _ _ _ _ _ _ _ _ _ _ _ _ _ _ _) as [s' | e] eqn:E.
  - apply save_student_inl in E as (? & ? & ? & ? & -> & _). reflexivity.
  - destruct e; reflexivity.
Qed.

Lemma reachable_departments s :
  reachable float_of_str int_of_str s -> departments s = default_departments.
Proof.
  induction 1 as [s H | s s' _ IH H | | |].
  - unfold default_departments. rewrite H. reflexivity.
  - unfold init_database in H.
    assert (Hd : departments
                   match settings s with
                   | Some _ => s
                   | None =>
                       set_settings
                         (Some {| smtp_email := None; smtp_app_password := None |}) s
                   end = default_departments)
      by (destruct (settings s); exact IH).
    rewrite Hd in H. vm_compute (List.length _ =? 0)%nat in H.
    injection H as <-. exact Hd.
  - rewrite upsert_departments. assumption.
  - rewrite add_subject_departments. assumption.
  - rewrite save_email_settings_departments. assumption.
Qed.

Lemma reachable_no_sentinel s :
  reachable float_of_str int_of_str s -> has_department "OTH99" s = false.
Proof.
  intros H. unfold has_department. rewrite (reachable_departments s H).
  reflexivity.
Qed.

(** Claim C10.  In a file the program can have produced no department
    has the code OTH99.  An upsert whose department name matches no row
    of [departments] ends as it would with any other name; when it
    succeeds, the student is stored with [dept_code] OTH99, no row of
    [get_all_students_summary] is theirs, and
    [get_student_details_and_data] returns [None] for them. *)
Theorem unknown_department_gets_sentinel today s sid name dept_name year
    semester email program_type duration_years course_name marks_data
    attendance_data :
  reachable float_of_str int_of_str s ->
  (forall d, In d (departments s) -> d_dept_name d <> dept_name) ->
  let r := add_or_update_student float_of_str int_of_str today s sid name
             dept_name year semester email program_type duration_years
             course_name marks_data attendance_data in
  (forall other,
      saved r = saved (add_or_update_student float_of_str int_of_str today s
                         sid name other year semester email program_type
                         duration_years course_name marks_data attendance_data))
  /\ has_department "OTH99" (snd r) = false
  /\ (saved r = true ->
       In {| s_student_id := sid; s_name := name; s_dept_code := "OTH99";
             s_year := year; s_semester := semester; s_email := email;
             s_program_type := program_type;
             s_duration_years := duration_years;
             s_course_name := course_name; s_created_date := today |}
          (students (snd r))
       /\ (forall row, In row (get_all_students_summary (snd r)) ->
                       sum_student_id row <> sid)
       /\ get_student_details_and_data (snd r) sid = None).
Proof.
  intros Hreach Hname r.
  assert (Hno : has_department "OTH99" (snd r) = false).
  { unfold has_department, r. rewrite upsert_departments.
    apply (reachable_no_sentinel s Hreach). }
  split; [| split; [exact Hno |]].
  - intros other. unfold r, add_or_update_student.
    pose proof (save_student_sim today today s s sid name name dept_name other
                  year semester email email program_type program_type
                  duration_years course_name course_name marks_data
                  attendance_data (same_details_refl _)) as Hrel.
    destruct (save_student _ _ _ _ _ _ _ dept_name _ _ _ _ _ _ _ _) as [s1 | e1],
             (save_student _ _ _ _ _ _ _ other _ _ _ _ _ _ _ _) as [s2 | e2];
      simpl in Hrel; try contradiction; [reflexivity |].
    subst e2. destruct e1; reflexivity.
  - pose proof (has_department_In _ _ Hno) as Hcodes. clear Hno.
    revert Hcodes. unfold r, add_or_update_student.
    destruct (save_student _ _ _ _ _ _ _ _ _ _ _ _ _ _ _ _) as [s' | e] eqn:E.
    2:{ destruct e; simpl; discriminate. }
    simpl. intros Hcodes _.
    apply save_student_inl in E as (mrows & n1 & arows & n2 & -> & _ & _).
    rewrite (find_dept_code_unknown s dept_name Hname) in *.
    simpl in Hcodes.
    split; [| split].
    + simpl. apply in_or_app. right. left. reflexivity.
    + intros row Hrow Hsid. unfold get_all_students_summary in Hrow.
      apply in_map_iff in Hrow as ([x d] & <- & Hin).
      apply order_by_In in Hin. unfold students_join_departments in Hin.
      apply in_flat_map in Hin as (x0 & Hx0 & Hin).
      apply in_map_iff in Hin as (d0 & Hpair & Hd0).
      injection Hpair as -> ->. apply filter_In in Hd0 as [Hd Hcode].
      apply String.eqb_eq in Hcode. simpl in Hx0, Hd, Hsid.
      apply in_app_or in Hx0 as [Hx | [<- | []]].
      * apply filter_In in Hx as [_ Hx]. unfold not_of_student in Hx.
        rewrite Hsid, String.eqb_refl in Hx. discriminate.
      * simpl in Hcode. apply (Hcodes d Hd). symmetry. exact Hcode.
    + unfold get_student_details_and_data. simpl.
      rewrite filter_app, own_of_others. simpl. rewrite String.eqb_refl. simpl.
      rewrite filter_none; [reflexivity |].
      intros d Hd. apply String.eqb_neq. intros Hc. apply (Hcodes d Hd).
      symmetry. exact Hc.
Qed.

End Upsert.

(** *** Foreign keys *)

(** On a connection that enforces the FOREIGN KEY clauses, a mark for a
    subject that is not in [subjects] makes the statements of the upsert
    raise, so that nothing is committed. *)
Section Enforced.

Variable float_of_str : string -> res Q.
Variable int_of_str : string -> res Z.
Variable conn : connection.
Hypothesis enforcing : foreign_keys conn = true.

Lemma insert_mark_enforced sid code v s :
  has_subject code s = false ->
  exists e, insert_mark conn sid code v s = raise e.
Proof.
  intros H. unfold insert_mark. destruct (existsb _ (marks s)); [eauto |].
  rewrite enforcing, H, andb_false_r. simpl. eauto.
Qed.

Lemma save_marks_enforced sid items s code v :
  In (code, v) items -> mark_wanted (code, v) = true ->
  has_subject code s = false ->
  exists e, save_marks float_of_str conn sid items s = raise e.
Proof.
  intros Hin Hw. revert s.
  induction items as [| item items IH]; [contradiction |].
  intros s Hs. simpl.
  destruct (save_mark float_of_str conn sid item s) as [s1 | e] eqn:E1;
    simpl; [| eexists; reflexivity].
  destruct Hin as [-> | Hin].
  - exfalso. unfold save_mark in E1. unfold mark_wanted in Hw. simpl in Hw.
    rewrite Hw in E1.
    destruct (float float_of_str v) as [q |]; simpl in E1; [| discriminate].
    destruct (insert_mark_enforced sid code q s Hs) as (e & He).
    rewrite He in E1. discriminate.
  - apply (IH Hin).
    destruct item as [c w]. unfold save_mark in E1.
    destruct (is_not_none w && str_strip_nonempty w).
    + apply bind_inl in E1 as (q & _ & E1).
      apply insert_mark_inl in E1 as (id & ->). exact Hs.
    + injection E1 as <-. exact Hs.
Qed.

Lemma save_student_enforced today s sid name dept_name year semester email
    program_type duration_years course_name marks_data attendance_data code v :
  In (code, v) marks_data -> mark_wanted (code, v) = true ->
  has_subject code s = false ->
  exists e,
    save_student float_of_str int_of_str conn today s sid name dept_name year
      semester email program_type duration_years course_name marks_data
      attendance_data = raise e.
Proof.
  intros Hin Hw Hs. unfold save_student.
  destruct (insert_or_replace_student conn _ s) as [s1 | e] eqn:E1; simpl;
    [| eexists; reflexivity].
  assert (H1 : subjects s1 = subjects s).
  { unfold insert_or_replace_student in E1.
    do 3 (apply bind_int_inv in E1; cbv beta in E1).
    destruct (_ && negb _); [discriminate |]. injection E1 as <-.
    destruct (_ && has_student _ _); reflexivity. }
  destruct (save_marks_enforced sid marks_data
              (delete_attendance sid (delete_marks sid s1)) code v Hin Hw)
    as (e & He).
  { unfold has_subject in *. simpl. rewrite H1. exact Hs. }
  rewrite He. simpl. eexists; reflexivity.
Qed.

End Enforced.

(** The connection the program opens accepts the same mark. *)
Lemma unenforced_foreign_key_accepts sid code v s :
  marks_of sid s = [] ->
  exists s', insert_mark sqlite3_connect sid code v s = ret s'.
Proof.
  intros H. unfold insert_mark.
  destruct (existsb _ (marks s)) eqn:E; [| simpl; eauto].
  apply existsb_exists in E as (m & Hin & Hm).
  apply andb_true_iff in Hm as [Hs _].
  assert (Hm : In m (marks_of sid s)) by (apply filter_In; auto).
  rewrite H in Hm. contradiction.
Qed.

(** Claim C1, on the code.  Student S1 is stored with two marks and two
    months; subject XXX99 is not in [subjects].  An upsert of S1 with a
    mark for XXX99 succeeds and commits: the two marks and the two months
    are gone and the mark for XXX99 is stored. *)
Theorem unknown_subject_is_committed :
  has_subject "XXX99" scenario = false
  /\ map mark_view (marks_of "S1" scenario)
     = [("S1", "MTH01", 80%Q); ("S1", "PHY01", 70%Q)]
  /\ map attendance_view (attendance_of "S1" scenario)
     = [("S1", "Jan", 20, 18); ("S1", "Feb", 20, 10)]
  /\ fst unknown_subject
     = (true, Text "Student S1 data saved/updated successfully.")
  /\ map mark_view (marks_of "S1" (snd unknown_subject))
     = [("S1", "XXX99", 50%Q)]
  /\ attendance_of "S1" (snd unknown_subject) = [].
Proof. repeat split; vm_compute; reflexivity. Qed.

(** *** Worked examples *)


(** Claim C2, as the specification words it, fails.  After S1 is saved
    twice on one day the Mark rows carry the rowids 3 and 4 where one
    call left 1 and 2 (AUTOINCREMENT hands out no rowid twice); saved
    again a day later, the student row carries the later
    [created_date]. *)
Lemma second_upsert_changes_rows :
  marks_of "S1" same_day <> marks_of "S1" scenario
  /\ students next_day <> students scenario.
Proof. split; intros H; vm_compute in H; discriminate H. Qed.

Lemma two_subjects_reachable :
  reachable float_of_digits int_of_digits two_subjects.
Proof.
  unfold two_subjects. destruct (init_database new_file) as [s0 |] eqn:E.
  - apply reach_subject, reach_subject, reach_init. exact E.
  - vm_compute in E. discriminate E.
Defined.

Lemma unknown_department_gets_sentinel_witness :
  reachable float_of_digits int_of_digits two_subjects
  /\ (forall d, In d (departments two_subjects) -> d_dept_name d <> "Astrology")
  /\ saved (save_s2 "Astrology") = saved (save_s2 "B.Sc. Physics")
  /\ saved (save_s2 "Astrology") = true
  /\ map s_dept_code (students (snd (save_s2 "Astrology"))) = ["OTH99"]
  /\ get_all_students_summary (snd (save_s2 "Astrology")) = []
  /\ get_student_details_and_data (snd (save_s2 "Astrology")) "S2" = None.
Proof.
  assert (Hname : forall d, In d (departments two_subjects) ->
                            d_dept_name d <> "Astrology").
  { intros d Hd. vm_compute in Hd.
    repeat (destruct Hd as [<- | Hd]; [discriminate |]). contradiction. }
  pose proof (unknown_department_gets_sentinel float_of_digits int_of_digits
                "2024-06-01" two_subjects "S2" "Bala" "Astrology" 2 3 "" "UG" 3
                "Astrology" s2_marks s2_months two_subjects_reachable Hname)
    as (Hany & _ & _).
  split; [exact two_subjects_reachable |]. split; [exact Hname |].
  split; [apply (Hany "B.Sc. Physics") |].
  repeat split; vm_compute; reflexivity.
Defined.

(** *** Grades and the scenario *)

(** Claim C6.  Whatever the percentage, [calculate_grade] answers with
    one of O, A+, A, B+, B, C and F, by the first of the lower bounds 90,
    80, 70, 60, 50 and 40 that the percentage reaches: O exactly from 90
    up, A+ exactly on [80, 90), A on [70, 80), B+ on [60, 70), B on
    [50, 60), C on [40, 50) and F exactly below 40; so 90 gives O, 89.99
    and 80 give A+, 79.99 gives A and 39.99 gives F. *)
Theorem calculate_grade_tiers (p : Q) :
  ((calculate_grade p = "O" <-> 90 <= p)
   /\ (calculate_grade p = "A+" <-> 80 <= p /\ p < 90)
   /\ (calculate_grade p = "A" <-> 70 <= p /\ p < 80)
   /\ (calculate_grade p = "B+" <-> 60 <= p /\ p < 70)
   /\ (calculate_grade p = "B" <-> 50 <= p /\ p < 60)
   /\ (calculate_grade p = "C" <-> 40 <= p /\ p < 50)
   /\ (calculate_grade p = "F" <-> p < 40))%Q
  /\ In (calculate_grade p) ["O"; "A+"; "A"; "B+"; "B"; "C"; "F"]
  /\ calculate_grade 90 = "O" /\ calculate_grade (8999 # 100) = "A+"
  /\ calculate_grade 80 = "A+" /\ calculate_grade (7999 # 100) = "A"
  /\ calculate_grade (3999 # 100) = "F".
Proof.
  split; [| split; [| repeat split; reflexivity]]; unfold calculate_grade.
  - threshold 90%Q p; [| threshold 80%Q p; [| threshold 70%Q p;
      [| threshold 60%Q p; [| threshold 50%Q p; [| threshold 40%Q p]]]]];
      repeat split; intros; try discriminate; try lra.
  - destruct (Qle_bool 90 p); [simpl; auto |].
    destruct (Qle_bool 80 p); [simpl; auto |].
    destruct (Qle_bool 70 p); [simpl; auto |].
    destruct (Qle_bool 60 p); [simpl; auto 10 |].
    destruct (Qle_bool 50 p); [simpl; auto 10 |].
    destruct (Qle_bool 40 p); simpl; auto 10.
Qed.

(** Claim C8.  S1 is saved with marks 80 in MTH01 and 70 in PHY01, both
    subjects having [max_marks] 100, and attendance 18 of 20 in Jan and
    10 of 20 in Feb.  The summary shows 75.00% for marks and 70.00% for
    attendance; the report card adds up 150 of 200 and 28 of 40, prints
    the same two percentages and the grade A; the desktop rule gives
    [calculate_percentage(40, 28) = 70.0] and the status Warning. *)
Theorem scenario_figures :
  map (fun sub => (sub_subject_code sub, sub_max_marks sub)) (subjects scenario)
  = [("MTH01", 100); ("PHY01", 100)]
  /\ map (fun r => (sum_student_id r, sum_marks_percent r, sum_attendance_percent r))
         (get_all_students_summary scenario)
     = [("S1", "75.00%", "70.00%")]
  /\ generate_student_report_pdf scenario "S1"
     = ret {| rep_total_marks := 150; rep_total_max_marks := 200;
              rep_percentage := "75.00%"; rep_grade := "A";
              rep_total_att_attended := 28; rep_total_att_held := 40;
              rep_final_att_pct := "70.00%" |}
  /\ calculate_grade 75 = "A"
  /\ Desktop.calculate_percentage 40 28 = ret 70%Q
  /\ Desktop.get_status 70 = "Warning".
Proof. repeat split; vm_compute; reflexivity. Qed.

End WebProofs.

(** ** Lists: sorting and keys *)

Module ListProofs.
Import Py.

Lemma insert_by_perm {A} (le : A -> A -> bool) (x : A) (l : list A) :
  Permutation (Web.insert_by le x l) (x :: l).
Proof.
  induction l as [| y l IH]; simpl; [reflexivity |].
  destruct (le x y); [reflexivity |].
  rewrite IH. apply perm_swap.
Qed.

Lemma order_by_perm {A} (le : A -> A -> bool) (l : list A) :
  Permutation (Web.order_by le l) l.
Proof.
  induction l as [| x l IH]; simpl; [reflexivity |].
  rewrite insert_by_perm. constructor. exact IH.
Qed.

Lemma order_by_In_iff {A} (le : A -> A -> bool) (l : list A) (x : A) :
  In x (Web.order_by le l) <-> In x l.
Proof.
  split; apply Permutation_in; [| symmetry]; apply order_by_perm.
Qed.

Lemma insert_by_sorted {A} (le : A -> A -> bool) (x : A) (l : list A) :
  (forall a b, le a b = true \/ le b a = true) ->
  Sorted (fun a b => le a b = true) l ->
  Sorted (fun a b => le a b = true) (Web.insert_by le x l).
Proof.
  intros Htot. induction 1 as [| y l Hl IH Hy]; simpl.
  - repeat constructor.
  - destruct (le x y) eqn:E.
    + constructor; [constructor; assumption | constructor; exact E].
    + constructor; [exact IH |].
      destruct l as [| z l]; simpl.
      * constructor. destruct (Htot x y); congruence.
      * destruct (le x z); constructor.
        -- destruct (Htot x y); congruence.
        -- inversion Hy; assumption.
Qed.

Lemma order_by_sorted {A} (le : A -> A -> bool) (l : list A) :
  (forall a b, le a b = true \/ le b a = true) ->
  Sorted (fun a b => le a b = true) (Web.order_by le l).
Proof.
  intros Htot. induction l as [| x l IH]; simpl; [constructor |].
  apply insert_by_sorted; assumption.
Qed.

Lemma NoDup_map_filter {A B} (g : A -> B) (p : A -> bool) (l : list A) :
  NoDup (map g l) -> NoDup (map g (filter p l)).
Proof.
  induction l as [| x l IH]; simpl; intros H; [constructor |].
  inversion H as [| ? ? Hx Hl]; subst.
  destruct (p x); simpl; [| auto].
  constructor; [| auto].
  intros Hin. apply Hx. apply in_map_iff in Hin as (y & Hy & Hin).
  apply filter_In in Hin as [Hin _]. apply in_map_iff. eauto.
Qed.

Lemma NoDup_snoc {B} (l : list B) (x : B) :
  NoDup l -> ~ In x l -> NoDup (l ++ [x]).
Proof.
  intros Hl Hx. apply NoDup_app; [exact Hl | repeat constructor; auto |].
  intros y Hy [<- | []]. contradiction.
Qed.

Lemma filter_ext_in' {A} (p q : A -> bool) (l : list A) :
  (forall x, In x l -> p x = q x) -> filter p l = filter q l.
Proof.
  induction l as [| x l IH]; simpl; intros H; [reflexivity |].
  rewrite (H x) by (left; reflexivity). rewrite IH by (intros; apply H; right; assumption).
  reflexivity.
Qed.

End ListProofs.

(** ** The desktop program: queries, statistics and the entry form *)

Module DesktopQueriesProofs.
Import Py Desktop DesktopQueries PyProofs DesktopProofs ListProofs.
Local Open Scope Q_scope.

Lemma by_name_total a b : by_name a b = true \/ by_name b a = true.
Proof. apply String.leb_total. Qed.

Lemma by_percentage_desc_total a b :
  by_percentage_desc a b = true \/ by_percentage_desc b a = true.
Proof.
  unfold by_percentage_desc.
  destruct (Qle_bool (percentage b) (percentage a)) eqn:E; [auto |].
  right. apply Qle_bool_false in E. apply Qle_bool_iff. lra.
Qed.

(** *** The retry loop of the read methods *)

Lemma select_no_fault {A} (f : faults) (gives_up rows : A) :
  f 0%nat = None -> select f gives_up rows = Some rows.
Proof.
  intros H. unfold select. simpl. unfold get_connection. rewrite H. reflexivity.
Qed.

(** *** Adding, finding, changing and deleting a student *)

Lemma add_student_try_fault today f a s sid name email year dept total present
    absent t :
  f a = Some t ->
  add_student_try today f a s sid name email year dept total present absent
  = raise (OperationalError t).
Proof.
  intros H. unfold add_student_try. rewrite calculate_percentage_Z. simpl.
  unfold get_connection. rewrite H. reflexivity.
Qed.

Lemma add_student_try_clear today f a s sid name email year dept total present
    absent :
  f a = None ->
  add_student_try today f a s sid name email year dept total present absent
  = insert_student s (stored_row today sid name email year dept total present absent).
Proof.
  intros H. unfold add_student_try. rewrite calculate_percentage_Z. simpl.
  unfold get_connection. rewrite H. reflexivity.
Qed.

Lemma insert_student_exn s r e :
  insert_student s r = inr e ->
  e = OverflowError \/ exists what, e = IntegrityError what.
Proof.
  unfold insert_student, bind_int.
  destruct (fits_int64 (total_classes r)); simpl; [| intros [= <-]; auto].
  destruct (fits_int64 (present_classes r)); simpl; [| intros [= <-]; auto].
  destruct (fits_int64 (absent_classes r)); simpl; [| intros [= <-]; auto].
  destruct (has_student _ _); [| discriminate]. intros [= <-]. eauto.
Qed.

Lemma insert_student_fits s r :
  fits_int64 (total_classes r) = true -> fits_int64 (present_classes r) = true ->
  fits_int64 (absent_classes r) = true ->
  insert_student s r
  = if has_student (student_id r) s
    then raise (IntegrityError "UNIQUE constraint failed: students.student_id")
    else ret {| students := students s ++ [r];
                email_settings := email_settings s |}.
Proof.
  intros H1 H2 H3. unfold insert_student, bind_int. rewrite H1, H2, H3. reflexivity.
Qed.

(** A pass of [add_student] in which the connection comes up does not
    look at the number of the pass. *)
Lemma add_student_pass today f a s sid name email year dept total present absent :
  f a = None ->
  match add_student_try today f a s sid name email year dept total present absent with
  | inl s' => Return (true, Text ("Student " ++ name ++ " added successfully!"), s')
  | inr (IntegrityError _) => Return (false, Text "Student ID already exists!", s)
  | inr (OperationalError text) =>
      on_operational_error a text (false, StrOf (OperationalError text), s)
  | inr e => Return (false, StrOf e, s)
  end
  = match insert_student s
            (stored_row today sid name email year dept total present absent) with
    | inl s' => Return (true, Text ("Student " ++ name ++ " added successfully!"), s')
    | inr (IntegrityError _) => Return (false, Text "Student ID already exists!", s)
    | inr e => Return (false, StrOf e, s)
    end.
Proof.
  intros H. rewrite add_student_try_clear by exact H.
  destruct (insert_student _ _) as [s' | e] eqn:E; [reflexivity |].
  apply insert_student_exn in E as [-> | [what ->]]; reflexivity.
Qed.

Lemma add_student_pass_locked today f a s sid name email year dept total present
    absent t :
  f a = Some t -> contains "locked" t = true -> (a < max_retries - 1)%nat ->
  match add_student_try today f a s sid name email year dept total present absent with
  | inl s' => Return (true, Text ("Student " ++ name ++ " added successfully!"), s')
  | inr (IntegrityError _) => Return (false, Text "Student ID already exists!", s)
  | inr (OperationalError text) =>
      on_operational_error a text (false, StrOf (OperationalError text), s)
  | inr e => Return (false, StrOf e, s)
  end = Continue.
Proof.
  intros H Ht Ha. rewrite (add_student_try_fault _ _ _ _ _ _ _ _ _ _ _ _ _ H).
  simpl. unfold on_operational_error. rewrite Ht.
  apply Nat.ltb_lt in Ha. rewrite Ha. reflexivity.
Qed.

(** Property X1.  When the first [k] passes of [add_student], for a [k]
    of at most two, find the file locked and the next pass gets its
    connection, the method answers, and leaves the file, exactly as it
    does when the file was never locked. *)
Theorem add_student_rides_out_locks today f s sid name email year dept total
    present absent (k : nat) :
  (k <= 2)%nat ->
  (forall a, (a < k)%nat -> exists t, f a = Some t /\ contains "locked" t = true) ->
  f k = None ->
  add_student today f s sid name email year dept total present absent
  = add_student today no_fault s sid name email year dept total present absent.
Proof.
  intros Hk Hlocked Hclear. unfold add_student.
  change (seq 0 max_retries) with [0; 1; 2]%nat. cbn [for_attempt].
  rewrite (add_student_pass today no_fault 0) by reflexivity.
  destruct k as [| [| [| k]]]; [| | | lia].
  - rewrite (add_student_pass today f 0) by exact Hclear.
    destruct (insert_student _ _) as [? | []]; reflexivity.
  - destruct (Hlocked 0%nat) as (t0 & H0 & L0); [lia |].
    rewrite (add_student_pass_locked _ _ _ _ _ _ _ _ _ _ _ _ _ H0 L0) by (simpl; lia).
    rewrite (add_student_pass today f 1) by exact Hclear.
    destruct (insert_student _ _) as [? | []]; reflexivity.
  - destruct (Hlocked 0%nat) as (t0 & H0 & L0); [lia |].
    destruct (Hlocked 1%nat) as (t1 & H1 & L1); [lia |].
    rewrite (add_student_pass_locked _ _ _ _ _ _ _ _ _ _ _ _ _ H0 L0) by (simpl; lia).
    rewrite (add_student_pass_locked _ _ _ _ _ _ _ _ _ _ _ _ _ H1 L1) by (simpl; lia).
    rewrite (add_student_pass today f 2) by exact Hclear.
    destruct (insert_student _ _) as [? | []]; reflexivity.
Qed.

Lemma add_student_rides_out_locks_witness :
  add_student "2024-06-01" locked_twice (init_database new_file) "S1" "Asha Devi"
    "" "1st Year" "B.Sc. Physics" 40 28 12
  = add_student "2024-06-01" no_fault (init_database new_file) "S1" "Asha Devi"
      "" "1st Year" "B.Sc. Physics" 40 28 12.
Proof.
  apply (add_student_rides_out_locks "2024-06-01" locked_twice
           (init_database new_file) "S1" "Asha Devi" "" "1st Year"
           "B.Sc. Physics" 40 28 12 2).
  - lia.
  - intros [| [| a]] Ha; [| | lia]; exists "database is locked"; split; reflexivity.
  - reflexivity.
Defined.

(** Property X2.  [add_student] gives up at the first pass whose
    connection fails with a message that does not mention a lock, and at
    the third pass whatever the message: it answers [False] with the text
    of that error and the file is as it was. *)
Theorem add_student_gives_up today f s sid name email year dept total present
    absent (k : nat) (t : string) :
  (k <= 2)%nat ->
  (forall a, (a < k)%nat -> exists t', f a = Some t' /\ contains "locked" t' = true) ->
  f k = Some t -> (k = 2%nat \/ contains "locked" t = false) ->
  add_student today f s sid name email year dept total present absent
  = Some (false, StrOf (OperationalError t), s).
Proof.
  intros Hk Hlocked Hfault Hlast. unfold add_student.
  change (seq 0 max_retries) with [0; 1; 2]%nat. cbn [for_attempt].
  assert (Hstop : on_operational_error k t (false, StrOf (OperationalError t), s)
                  = Return (false, StrOf (OperationalError t), s)).
  { unfold on_operational_error. destruct Hlast as [-> | ->]; [| reflexivity].
    rewrite andb_false_r. reflexivity. }
  destruct k as [| [| [| k]]]; [| | | lia].
  - rewrite (add_student_try_fault _ _ _ _ _ _ _ _ _ _ _ _ _ Hfault). simpl.
    rewrite Hstop. reflexivity.
  - destruct (Hlocked 0%nat) as (t0 & H0 & L0); [lia |].
    rewrite (add_student_pass_locked _ _ _ _ _ _ _ _ _ _ _ _ _ H0 L0) by (simpl; lia).
    rewrite (add_student_try_fault _ _ _ _ _ _ _ _ _ _ _ _ _ Hfault). simpl.
    rewrite Hstop. reflexivity.
  - destruct (Hlocked 0%nat) as (t0 & H0 & L0); [lia |].
    destruct (Hlocked 1%nat) as (t1 & H1 & L1); [lia |].
    rewrite (add_student_pass_locked _ _ _ _ _ _ _ _ _ _ _ _ _ H0 L0) by (simpl; lia).
    rewrite (add_student_pass_locked _ _ _ _ _ _ _ _ _ _ _ _ _ H1 L1) by (simpl; lia).
    rewrite (add_student_try_fault _ _ _ _ _ _ _ _ _ _ _ _ _ Hfault). simpl.
    rewrite Hstop. reflexivity.
Qed.

Lemma add_student_gives_up_witness :
  add_student "2024-06-01" always_locked (init_database new_file) "S1"
    "Asha Devi" "" "1st Year" "B.Sc. Physics" 40 28 12
  = Some (false, StrOf (OperationalError "database is locked"),
          init_database new_file).
Proof.
  apply (add_student_gives_up "2024-06-01" always_locked (init_database new_file)
           "S1" "Asha Devi" "" "1st Year" "B.Sc. Physics" 40 28 12 2
           "database is locked").
  - lia.
  - intros a Ha. exists "database is locked". split; reflexivity.
  - reflexivity.
  - left. reflexivity.
Defined.

Lemma add_student_clear today f s sid name email year dept total present absent :
  f 0%nat = None ->
  fits_int64 total = true -> fits_int64 present = true -> fits_int64 absent = true ->
  add_student today f s sid name email year dept total present absent
  = Some (if has_student sid s
          then (false, Text "Student ID already exists!", s)
          else (true, Text ("Student " ++ name ++ " added successfully!"),
                {| students :=
                     students s
                     ++ [stored_row today sid name email year dept total present absent];
                   email_settings := email_settings s |})).
Proof.
  intros Hf H1 H2 H3. unfold add_student.
  change (seq 0 max_retries) with [0; 1; 2]%nat. cbn [for_attempt].
  rewrite (add_student_pass today f 0) by exact Hf.
  rewrite insert_student_fits by assumption. simpl.
  destruct (has_student sid s); reflexivity.
Qed.

Lemma search_student_clear f s sid :
  f 0%nat = None ->
  search_student f s sid
  = Some (fetchone (filter (fun r => String.eqb (student_id r) sid) (students s))).
Proof. intros H. apply select_no_fault, H. Qed.




(** Property X4.  Adding a student under an id that is already in the
    table is refused with "Student ID already exists!", and the row that
    holds the id stays as it is. *)
Theorem add_existing_student_refused today f s sid name email year dept total
    present absent :
  f 0%nat = None ->
  fits_int64 total = true -> fits_int64 present = true -> fits_int64 absent = true ->
  has_student sid s = true ->
  add_student today f s sid name email year dept total present absent
  = Some (false, Text "Student ID already exists!", s).
Proof.
  intros Hf H1 H2 H3 Hold. rewrite add_student_clear by assumption.
  rewrite Hold. reflexivity.
Qed.

Lemma add_existing_student_refused_witness :
  add_student "2024-07-01" no_fault asha_file "S1" "Someone Else" "" "2nd Year"
    "B.A. Tamil" 10 10 0
  = Some (false, Text "Student ID already exists!", asha_file).
Proof.
  apply (add_existing_student_refused "2024-07-01" no_fault asha_file "S1"
           "Someone Else" "" "2nd Year" "B.A. Tamil" 10 10 0); reflexivity.
Defined.

Lemma db_eta (s : db) :
  {| students := students s; email_settings := email_settings s |} = s.
Proof. destruct s. reflexivity. Qed.

Lemma update_student_clear f s sid name email year dept total present absent :
  f 0%nat = None ->
  fits_int64 total = true -> fits_int64 present = true -> fits_int64 absent = true ->
  update_student f s sid name email year dept total present absent
  = Some (true, Text "Student updated successfully!",
          {| students :=
               map (update_row sid name email year dept total present absent
                      (code_percentage total present)
                      (get_status (code_percentage total present))) (students s);
             email_settings := email_settings s |}).
Proof.
  intros Hf H1 H2 H3. unfold update_student.
  change (seq 0 max_retries) with [0; 1; 2]%nat. cbn [for_attempt].
  unfold update_student_try. rewrite calculate_percentage_Z. simpl.
  unfold get_connection. rewrite Hf. simpl.
  unfold bind_int. rewrite H1, H2, H3. reflexivity.
Qed.

(** Property X5.  [update_student] does not look at the number of rows
    its UPDATE changed: for an id that is not in the table it answers
    "Student updated successfully!" and the file is as it was. *)
Theorem update_unknown_student_reports_success f s sid name email year dept
    total present absent :
  f 0%nat = None ->
  fits_int64 total = true -> fits_int64 present = true -> fits_int64 absent = true ->
  has_student sid s = false ->
  update_student f s sid name email year dept total present absent
  = Some (true, Text "Student updated successfully!", s).
Proof.
  intros Hf H1 H2 H3 Hnew. rewrite update_student_clear by assumption.
  do 3 f_equal. rewrite <- (db_eta s) at 3. f_equal.
  rewrite <- (map_id (students s)) at 2. apply map_ext_in.
  intros r Hr. unfold update_row.
  destruct (String.eqb (student_id r) sid) eqn:E; [| reflexivity].
  unfold has_student in Hnew.
  assert (existsb (fun r => String.eqb (student_id r) sid) (students s) = true)
    by (apply existsb_exists; eauto).
  congruence.
Qed.

Lemma update_unknown_student_reports_success_witness :
  update_student no_fault asha_file "S9" "Nobody" "" "1st Year" "B.A. Tamil" 10 5 5
  = Some (true, Text "Student updated successfully!", asha_file).
Proof.
  apply (update_unknown_student_reports_success no_fault asha_file "S9" "Nobody"
           "" "1st Year" "B.A. Tamil" 10 5 5); reflexivity.
Defined.




Lemma delete_student_clear f s sid :
  f 0%nat = None ->
  delete_student f s sid
  = Some (true, Text "Student deleted successfully!",
          {| students :=
               filter (fun r => negb (String.eqb (student_id r) sid)) (students s);
             email_settings := email_settings s |}).
Proof.
  intros Hf. unfold delete_student.
  change (seq 0 max_retries) with [0; 1; 2]%nat. cbn [for_attempt].
  unfold delete_student_try, get_connection. rewrite Hf. reflexivity.
Qed.

(** Property X7.  With a connection at the first pass [delete_student]
    answers "Student deleted successfully!" whether or not the id was in
    the table; afterwards [search_student] finds nothing under the id and,
    for every other id, what it found before. *)
Theorem delete_then_search f f' s sid :
  f 0%nat = None -> f' 0%nat = None ->
  exists s',
    delete_student f s sid = Some (true, Text "Student deleted successfully!", s')
    /\ search_student f' s' sid = Some None
    /\ forall other, other <> sid ->
         search_student f' s' other = search_student f' s other.
Proof.
  intros Hf Hf'. rewrite delete_student_clear by exact Hf.
  eexists. split; [reflexivity |]. split.
  - rewrite search_student_clear by exact Hf'. simpl.
    rewrite filter_none; [reflexivity |].
    intros r Hr. apply filter_In in Hr as [_ Hr].
    destruct (String.eqb (student_id r) sid); [discriminate | reflexivity].
  - intros other Hother. rewrite !search_student_clear by exact Hf'. simpl.
    f_equal. f_equal.
    induction (students s) as [| r l IH]; simpl; [reflexivity |].
    destruct (String.eqb (student_id r) sid) eqn:E; simpl.
    + destruct (String.eqb (student_id r) other) eqn:E'; [| exact IH].
      apply String.eqb_eq in E, E'. congruence.
    + destruct (String.eqb (student_id r) other); rewrite IH; reflexivity.
Qed.

Lemma delete_then_search_witness :
  exists s',
    delete_student no_fault asha_file "S1"
    = Some (true, Text "Student deleted successfully!", s')
    /\ search_student no_fault s' "S1" = Some None.
Proof.
  destruct (delete_then_search no_fault no_fault asha_file "S1" eq_refl eq_refl)
    as (s' & Hdelete & Hfind & _).
  exists s'. split; assumption.
Defined.

(** *** The primary key *)

Lemma has_student_false_In sid s :
  has_student sid s = false -> ~ In sid (map student_id (students s)).
Proof.
  unfold has_student. intros H Hin.
  apply in_map_iff in Hin as (r & Hr & Hin).
  assert (existsb (fun r => String.eqb (student_id r) sid) (students s) = true).
  { apply existsb_exists. exists r. split; [exact Hin |]. apply String.eqb_eq, Hr. }
  congruence.
Qed.

Lemma add_student_ids today f s sid name email year dept total present absent r :
  NoDup (map student_id (students s)) ->
  add_student today f s sid name email year dept total present absent = Some r ->
  NoDup (map student_id (students (snd r))).
Proof.
  intros Hs H. revert r H. unfold add_student.
  apply (for_attempt_inv (fun r => NoDup (map student_id (students (snd r))))).
  intros a r.
  destruct (add_student_try today f a s sid name email year dept total present absent)
    as [s' | e] eqn:E.
  - intros H; injection H as <-. simpl.
    unfold add_student_try in E. rewrite calculate_percentage_Z in E. simpl in E.
    destruct (get_connection f a) as [[] | e]; simpl in E; [| discriminate].
    unfold insert_student in E. simpl in E.
    do 3 (apply bind_int_inv in E; cbv beta in E).
    destruct (has_student sid s) eqn:Hnew; [discriminate |]. injection E as <-.
    simpl. rewrite map_app. simpl.
    apply NoDup_snoc; [exact Hs | apply has_student_false_In, Hnew].
  - destruct e; simpl; try (intros H; injection H as <-; exact Hs).
    apply (on_operational_error_inv
             (fun r => NoDup (map student_id (students (snd r))))).
    exact Hs.
Qed.

Lemma update_student_ids f s sid name email year dept total present absent r :
  update_student f s sid name email year dept total present absent = Some r ->
  map student_id (students (snd r)) = map student_id (students s).
Proof.
  intros H. revert r H. unfold update_student.
  apply (for_attempt_inv
           (fun r => map student_id (students (snd r)) = map student_id (students s))).
  intros a r.
  destruct (update_student_try f a s sid name email year dept total present absent)
    as [s' | e] eqn:E.
  - intros H; injection H as <-. simpl.
    unfold update_student_try in E. rewrite calculate_percentage_Z in E. simpl in E.
    destruct (get_connection f a) as [[] | e]; simpl in E; [| discriminate].
    do 3 (apply bind_int_inv in E; cbv beta in E). injection E as <-.
    simpl. rewrite map_map. apply map_ext.
    intros r. unfold update_row. destruct (String.eqb _ _); reflexivity.
  - destruct e; simpl; try (intros H; injection H as <-; reflexivity).
    apply (on_operational_error_inv
             (fun r => map student_id (students (snd r)) = map student_id (students s))).
    reflexivity.
Qed.

Lemma delete_student_ids f s sid r :
  NoDup (map student_id (students s)) ->
  delete_student f s sid = Some r ->
  NoDup (map student_id (students (snd r))).
Proof.
  intros Hs H. revert r H. unfold delete_student.
  apply (for_attempt_inv (fun r => NoDup (map student_id (students (snd r))))).
  intros a r.
  destruct (delete_student_try f a s sid) as [s' | e] eqn:E.
  - intros H; injection H as <-. simpl.
    unfold delete_student_try in E.
    destruct (get_connection f a) as [[] | e]; simpl in E; [| discriminate].
    injection E as <-. simpl. apply NoDup_map_filter, Hs.
  - destruct e; simpl; try (intros H; injection H as <-; exact Hs).
    apply (on_operational_error_inv
             (fun r => NoDup (map student_id (students (snd r))))).
    exact Hs.
Qed.

Lemma exec_ids_unique s c :
  NoDup (map student_id (students s)) ->
  NoDup (map student_id (students (exec s c))).
Proof.
  intros Hs. destruct c.
  - simpl.
    destruct (add_student _ _ _ _ _ _ _ _ _ _ _) as [[m s'] |] eqn:E; [| exact Hs].
    apply (add_student_ids _ _ _ _ _ _ _ _ _ _ _ _ Hs E).
  - simpl.
    destruct (update_student _ _ _ _ _ _ _ _ _ _) as [[m s'] |] eqn:E; [| exact Hs].
    apply update_student_ids in E. simpl in E. rewrite E. exact Hs.
  - simpl.
    destruct (delete_student _ _ _) as [[m s'] |] eqn:E; [| exact Hs].
    apply (delete_student_ids _ _ _ _ Hs E).
  - rewrite save_email_settings_exec. exact Hs.
Qed.

Lemma run_ids_unique (calls : list call) :
  NoDup (map student_id (students (run calls (init_database new_file)))).
Proof.
  assert (H : forall s, NoDup (map student_id (students s)) ->
                        NoDup (map student_id (students (run calls s)))).
  { induction calls as [| c calls IH]; simpl; intros s Hs; [exact Hs |].
    apply IH, exec_ids_unique, Hs. }
  apply H. constructor.
Qed.

Lemma fetchone_unique {A} (key : A -> string) (k : string) (l : list A) (r : A) :
  NoDup (map key l) -> In r l -> key r = k ->
  fetchone (filter (fun x => String.eqb (key x) k) l) = Some r.
Proof.
  intros Hnd Hin Hk. induction l as [| x l IH]; simpl in *; [contradiction |].
  inversion Hnd as [| ? ? Hx Hl]; subst.
  destruct Hin as [-> | Hin].
  - rewrite String.eqb_refl. reflexivity.
  - destruct (String.eqb (key x) (key r)) eqn:E.
    + apply String.eqb_eq in E. elim Hx. rewrite E. apply in_map, Hin.
    + auto.
Qed.

(** Property X8.  Whatever calls were made since the file was created, no
    two rows of [students] share an id; so [search_student], given a
    connection, returns a row exactly when it is the row of the table
    with that id. *)
Theorem search_finds_the_student (calls : list call) (f : faults) (r : student)
    (sid : string) :
  f 0%nat = None ->
  NoDup (map student_id (students (run calls (init_database new_file))))
  /\ (search_student f (run calls (init_database new_file)) sid = Some (Some r)
      <-> In r (students (run calls (init_database new_file)))
          /\ student_id r = sid).
Proof.
  intros Hf. split; [apply run_ids_unique |].
  rewrite search_student_clear by exact Hf. split.
  - intros H. injection H as H.
    destruct (filter _ _) as [| x l] eqn:E; [discriminate |]. injection H as ->.
    assert (Hin : In r (filter (fun r => String.eqb (student_id r) sid)
                          (students (run calls (init_database new_file)))))
      by (rewrite E; left; reflexivity).
    apply filter_In in Hin as [Hin Hid]. split; [exact Hin |].
    apply String.eqb_eq, Hid.
  - intros [Hin Hid]. f_equal.
    apply (fetchone_unique student_id); [apply run_ids_unique | exact Hin | exact Hid].
Qed.

Lemma search_finds_the_student_witness :
  NoDup (map student_id (students asha_file))
  /\ (search_student no_fault asha_file "S1"
      = Some (Some (stored_row "2024-06-01" "S1" "Asha Devi" "" "1st Year"
                      "B.Sc. Physics" 40 28 12))
      <-> In (stored_row "2024-06-01" "S1" "Asha Devi" "" "1st Year"
                "B.Sc. Physics" 40 28 12) (students asha_file)
          /\ student_id (stored_row "2024-06-01" "S1" "Asha Devi" "" "1st Year"
                           "B.Sc. Physics" 40 28 12) = "S1").
Proof.
  apply (search_finds_the_student asha no_fault
           (stored_row "2024-06-01" "S1" "Asha Devi" "" "1st Year"
              "B.Sc. Physics" 40 28 12) "S1").
  reflexivity.
Defined.

(** *** Filters *)

Lemma get_status_good p : get_status p = "Good" <-> 75 <= p.
Proof.
  unfold get_status. threshold 75 p; [| threshold 60 p];
    split; intros; try discriminate; try lra; auto.
Qed.

Lemma get_status_warning p : get_status p = "Warning" <-> 60 <= p /\ p < 75.
Proof.
  unfold get_status. threshold 75 p; [| threshold 60 p];
    split; intros; try discriminate; try lra; auto.
Qed.

Lemma get_status_critical p : get_status p = "Critical" <-> p < 60.
Proof.
  unfold get_status. threshold 75 p; [| threshold 60 p];
    split; intros; try discriminate; try lra; auto.
Qed.

Lemma run_status calls r :
  In r (students (run calls (init_database new_file))) ->
  status r = get_status (percentage r).
Proof.
  intros Hr.
  assert (H : all_consistent (run calls (init_database new_file)))
    by (apply run_inv; constructor).
  unfold all_consistent in H. rewrite Forall_forall in H. apply (H r Hr).
Qed.

Lemma filter_by_status_clear f s st :
  f 0%nat = None -> st <> "All" ->
  filter_by_status f s st
  = Some (Web.order_by by_percentage_desc
            (filter (fun r => String.eqb (status r) st) (students s))).
Proof.
  intros Hf Hst. unfold filter_by_status. rewrite select_no_fault by exact Hf.
  apply String.eqb_neq in Hst. rewrite Hst. reflexivity.
Qed.

(** Property X9.  On every file the program can have written,
    [filter_by_status] selects by the stored percentage: "Good" gives
    exactly the students at 75 or more, "Warning" those from 60 up to but
    not including 75, "Critical" those below 60 and "All" every student,
    each list in descending order of percentage. *)
Theorem filter_by_status_selects_tier (calls : list call) (f : faults) :
  f 0%nat = None ->
  let s := run calls (init_database new_file) in
  exists good warning critical everyone,
    filter_by_status f s "Good" = Some good
    /\ filter_by_status f s "Warning" = Some warning
    /\ filter_by_status f s "Critical" = Some critical
    /\ filter_by_status f s "All" = Some everyone
    /\ (forall r, In r good <-> In r (students s) /\ 75 <= percentage r)
    /\ (forall r, In r warning
                  <-> In r (students s) /\ 60 <= percentage r /\ percentage r < 75)
    /\ (forall r, In r critical <-> In r (students s) /\ percentage r < 60)
    /\ Permutation everyone (students s)
    /\ Forall (Sorted (fun a b => percentage b <= percentage a))
              [good; warning; critical; everyone].
Proof.
  intros Hf s.
  rewrite !filter_by_status_clear by (exact Hf || discriminate).
  unfold filter_by_status. rewrite select_no_fault by exact Hf.
  change (String.eqb "All" "All") with true. cbv iota.
  do 4 eexists. do 4 (split; [reflexivity |]).
  assert (Hsorted : forall l, Sorted (fun a b => percentage b <= percentage a)
                                (Web.order_by by_percentage_desc l)).
  { intros l.
    eapply Sorted_ind with (P := Sorted (fun a b => percentage b <= percentage a));
      [constructor | | apply order_by_sorted, by_percentage_desc_total].
    intros a l0 _ IH Hd. constructor; [exact IH |].
    destruct Hd; constructor. apply Qle_bool_iff. assumption. }
  assert (Hmem : forall st r,
             In r (Web.order_by by_percentage_desc
                     (filter (fun r => String.eqb (status r) st) (students s)))
             <-> In r (students s) /\ get_status (percentage r) = st).
  { intros st r. rewrite order_by_In_iff, filter_In.
    split; intros [Hin Hst]; (split; [exact Hin |]).
    - rewrite <- (run_status calls r Hin). apply String.eqb_eq, Hst.
    - rewrite (run_status calls r Hin). apply String.eqb_eq, Hst. }
  split; [| split; [| split; [| split]]].
  - intros r. rewrite Hmem, get_status_good. reflexivity.
  - intros r. rewrite Hmem, get_status_warning. reflexivity.
  - intros r. rewrite Hmem, get_status_critical. reflexivity.
  - apply order_by_perm.
  - repeat constructor; apply Hsorted.
Qed.

Lemma filter_by_status_selects_tier_witness :
  exists warning,
    filter_by_status no_fault asha_file "Warning" = Some warning
    /\ (forall r, In r warning
                  <-> In r (students asha_file)
                      /\ 60 <= percentage r /\ percentage r < 75)
    /\ map student_id warning = ["S1"].
Proof.
  destruct (filter_by_status_selects_tier asha no_fault eq_refl)
    as (good & warning & critical & everyone & _ & Hw & _ & _ & _ & Hin & _).
  exists warning. split; [exact Hw |]. split; [exact Hin |].
  vm_compute in Hw. injection Hw as <-. reflexivity.
Defined.

(** *** Statistics *)

Lemma tiers_partition (rows : list student) :
  (count (fun r => Qlt_bool (percentage r) 60) rows
   + count (fun r => Qle_bool 60 (percentage r) && Qlt_bool (percentage r) 75) rows
   + count (fun r => Qle_bool 75 (percentage r)) rows
   = Z.of_nat (List.length rows))%Z.
Proof.
  unfold count. induction rows as [| r rows IH]; [reflexivity |].
  cbn [filter List.length].
  destruct (Qlt_bool (percentage r) 60) eqn:E1;
    destruct (Qle_bool 60 (percentage r)) eqn:E2;
    destruct (Qlt_bool (percentage r) 75) eqn:E3;
    destruct (Qle_bool 75 (percentage r)) eqn:E4;
    cbn [andb List.length]; rewrite ?Nat2Z.inj_succ;
    try (apply Qlt_bool_iff in E1); try (apply Qlt_bool_false in E1);
    try (apply Qle_bool_iff in E2); try (apply Qle_bool_false in E2);
    try (apply Qlt_bool_iff in E3); try (apply Qlt_bool_false in E3);
    try (apply Qle_bool_iff in E4); try (apply Qle_bool_false in E4);
    try lra; lia.
Qed.

Lemma filter_key_once {B} (g : string -> B) (k : string) (keys : list string) :
  NoDup keys ->
  filter (fun kv => String.eqb (fst kv) k) (map (fun k' => (k', g k')) keys)
  = if in_dec string_dec k keys then [(k, g k)] else [].
Proof.
  induction 1 as [| x keys Hx Hnd IH]; simpl; [reflexivity |].
  rewrite IH. destruct (String.eqb x k) eqn:E.
  - apply String.eqb_eq in E. subst x.
    destruct (string_dec k k); [| congruence].
    destruct (in_dec string_dec k keys); [contradiction | reflexivity].
  - apply String.eqb_neq in E.
    destruct (string_dec x k); [congruence |].
    destruct (in_dec string_dec k keys); reflexivity.
Qed.

Lemma group_keys_NoDup (key : student -> string) rows :
  NoDup (Web.order_by String.leb (nodup string_dec (map key rows))).
Proof.
  eapply Permutation_NoDup; [symmetry; apply order_by_perm | apply NoDup_nodup].
Qed.

Lemma group_keys_In (key : student -> string) rows k :
  In k (Web.order_by String.leb (nodup string_dec (map key rows)))
  <-> exists r, In r rows /\ key r = k.
Proof.
  rewrite order_by_In_iff, nodup_In, in_map_iff.
  split; intros [r [H1 H2]]; exists r; auto.
Qed.

Lemma distribution_get (key : student -> string) rows k :
  dict_get (map (fun g => (fst g, Z.of_nat (List.length (snd g))))
              (group_by key rows)) k
  = count (fun r => String.eqb (key r) k) rows.
Proof.
  unfold dict_get, group_by. rewrite map_map. cbn [fst snd].
  rewrite (filter_key_once
             (fun k' => Z.of_nat (List.length
                          (filter (fun r => String.eqb (key r) k') rows))))
    by apply group_keys_NoDup.
  destruct (in_dec _ _ _) as [Hin | Hout]; [reflexivity |].
  unfold count. rewrite filter_none; [reflexivity |].
  intros r Hr. apply String.eqb_neq. intros E. apply Hout.
  apply group_keys_In. exists r. auto.
Qed.

Lemma sum_Z_add {A} (F G : A -> Z) (l : list A) :
  Web.sum_Z (map (fun k => (F k + G k)%Z) l)
  = (Web.sum_Z (map F l) + Web.sum_Z (map G l))%Z.
Proof.
  unfold Web.sum_Z. induction l as [| x l IH]; simpl; [reflexivity |].
  rewrite IH. lia.
Qed.

Lemma sum_Z_zero {A} (F : A -> Z) (l : list A) :
  (forall k, In k l -> F k = 0%Z) -> Web.sum_Z (map F l) = 0%Z.
Proof.
  unfold Web.sum_Z. induction l as [| x l IH]; simpl; intros H; [reflexivity |].
  rewrite IH by auto. rewrite (H x) by auto. reflexivity.
Qed.

Lemma sum_Z_indicator (k : string) (keys : list string) :
  NoDup keys -> In k keys ->
  Web.sum_Z (map (fun k' => if String.eqb k k' then 1%Z else 0%Z) keys) = 1%Z.
Proof.
  induction 1 as [| x keys Hx Hnd IH]; intros Hin; [contradiction |].
  change (((if String.eqb k x then 1 else 0)
           + Web.sum_Z (map (fun k' => if String.eqb k k' then 1 else 0) keys))%Z
          = 1%Z).
  destruct Hin as [-> | Hin].
  - rewrite String.eqb_refl. rewrite sum_Z_zero; [reflexivity |].
    intros k' Hk'. destruct (String.eqb k k') eqn:E; [| reflexivity].
    apply String.eqb_eq in E. subst. contradiction.
  - rewrite IH by exact Hin. destruct (String.eqb k x) eqn:E; [| reflexivity].
    apply String.eqb_eq in E. subst. contradiction.
Qed.

Lemma counts_add_up (key : student -> string) (rows : list student)
    (keys : list string) :
  NoDup keys -> (forall r, In r rows -> In (key r) keys) ->
  Web.sum_Z (map (fun k => Z.of_nat (List.length
                             (filter (fun r => String.eqb (key r) k) rows))) keys)
  = Z.of_nat (List.length rows).
Proof.
  intros Hnd. induction rows as [| r rows IH]; intros Hin.
  - apply sum_Z_zero. reflexivity.
  - rewrite (map_ext _
      (fun k => ((if String.eqb (key r) k then 1 else 0)
                 + Z.of_nat (List.length
                     (filter (fun r => String.eqb (key r) k) rows)))%Z)).
    + rewrite sum_Z_add, sum_Z_indicator, IH; cbn [List.length];
        try lia; auto using in_eq, in_cons.
    + intros k. cbn [filter]. destruct (String.eqb (key r) k);
        cbn [List.length]; lia.
Qed.

Lemma distribution_total (key : student -> string) rows :
  Web.sum_Z (map snd (map (fun g => (fst g, Z.of_nat (List.length (snd g))))
                         (group_by key rows)))
  = Z.of_nat (List.length rows).
Proof.
  unfold group_by. rewrite !map_map. cbn [fst snd].
  apply counts_add_up; [apply group_keys_NoDup |].
  intros r Hr. apply group_keys_In. exists r. auto.
Qed.

Lemma get_statistics_clear f s :
  f 0%nat = None -> get_statistics f s = Some (Some (statistics_of (students s))).
Proof. intros Hf. unfold get_statistics. apply select_no_fault, Hf. Qed.

(** Property X10.  On every file the program can have written, the
    figures of [get_statistics] agree with each other: the critical,
    warning and good counts, taken from the percentages, add up to the
    total and equal the entries of the distribution by stored status, and
    the counts by year and by department each add up to the total. *)
Theorem statistics_agree (calls : list call) (f : faults) :
  f 0%nat = None ->
  exists st,
    get_statistics f (run calls (init_database new_file)) = Some (Some st)
    /\ (critical_count st + warning_count st + good_count st
        = total_students st)%Z
    /\ dict_get (status_distribution st) "Critical" = critical_count st
    /\ dict_get (status_distribution st) "Warning" = warning_count st
    /\ dict_get (status_distribution st) "Good" = good_count st
    /\ Web.sum_Z (map snd (year_distribution st)) = total_students st
    /\ Web.sum_Z (map (fun d => snd (fst d)) (department_stats st))
       = total_students st.
Proof.
  intros Hf. eexists. split; [apply get_statistics_clear, Hf |].
  set (rows := students (run calls (init_database new_file))).
  assert (Hst : forall st (p : student -> bool),
             (forall r, p r = true <-> get_status (percentage r) = st) ->
             dict_get (status_distribution (statistics_of rows)) st = count p rows).
  { intros st p Hp. cbn [statistics_of status_distribution].
    rewrite distribution_get. unfold count. f_equal. f_equal.
    apply filter_ext_in'. intros r Hr.
    rewrite (run_status calls r Hr).
    destruct (p r) eqn:E.
    - apply String.eqb_eq, Hp, E.
    - apply String.eqb_neq. intros N. apply Hp in N. congruence. }
  split; [apply tiers_partition |].
  split; [| split; [| split; [| split]]].
  - apply Hst. intros r. rewrite get_status_critical. apply Qlt_bool_iff.
  - apply Hst. intros r. rewrite get_status_warning, andb_true_iff,
      Qle_bool_iff, Qlt_bool_iff. reflexivity.
  - apply Hst. intros r. rewrite get_status_good. apply Qle_bool_iff.
  - apply distribution_total.
  - cbn [statistics_of department_stats total_students].
    rewrite <- (distribution_total department rows). rewrite !map_map. reflexivity.
Qed.

Lemma statistics_agree_witness :
  exists st,
    get_statistics no_fault asha_file = Some (Some st)
    /\ (critical_count st + warning_count st + good_count st
        = total_students st)%Z
    /\ dict_get (status_distribution st) "Warning" = warning_count st
    /\ warning_count st = 1%Z.
Proof.
  destruct (statistics_agree asha no_fault eq_refl)
    as (st & Hst & Hsum & _ & Hw & _).
  exists st. split; [exact Hst |]. split; [exact Hsum |]. split; [exact Hw |].
  vm_compute in Hst. injection Hst as <-. reflexivity.
Defined.

(** *** LIKE *)












(** *** Selections by year and department *)

(** Property X12.  The four queries of [get_students_by_year_dept] are
    one selection: the students whose year is the given one, or any year
    for "All", and whose department is the given one, or any for "All",
    in ascending order of name; with "All" twice it is the list of
    [get_all_students]. *)
Theorem year_dept_selection (f : faults) (s : db) (y d : string) :
  f 0%nat = None ->
  exists rows,
    get_students_by_year_dept f s y d = Some rows
    /\ Permutation rows
         (filter (fun r => (String.eqb y "All" || String.eqb (year r) y)
                           && (String.eqb d "All" || String.eqb (department r) d))
                 (students s))
    /\ Sorted (fun a b => String.leb (name a) (name b) = true) rows
    /\ (y = "All" -> d = "All" -> get_all_students f s = Some rows).
Proof.
  intros Hf. unfold get_students_by_year_dept, get_all_students.
  rewrite !select_no_fault by exact Hf.
  eexists. split; [reflexivity |].
  split; [| split].
  - destruct (String.eqb y "All") eqn:Ey; destruct (String.eqb d "All") eqn:Ed;
      cbn [andb orb]; rewrite order_by_perm.
    + clear. induction (students s); simpl; auto.
    + reflexivity.
    + apply Permutation_refl'. apply filter_ext_in'. intros r _.
      rewrite andb_true_r. reflexivity.
    + reflexivity.
  - destruct (_ && _); [| destruct (String.eqb y "All");
                           [| destruct (String.eqb d "All")]];
      apply (order_by_sorted by_name), by_name_total.
  - intros -> ->. reflexivity.
Qed.

Lemma year_dept_selection_witness :
  exists rows,
    get_students_by_year_dept no_fault asha_file "All" "B.Sc. Physics" = Some rows
    /\ Permutation rows
         (filter (fun r => (String.eqb "All" "All" || String.eqb (year r) "All")
                           && (String.eqb "B.Sc. Physics" "All"
                               || String.eqb (department r) "B.Sc. Physics"))
                 (students asha_file))
    /\ map student_id rows = ["S1"].
Proof.
  destruct (year_dept_selection no_fault asha_file "All" "B.Sc. Physics" eq_refl)
    as (rows & Hrows & Hperm & _).
  exists rows. split; [exact Hrows |]. split; [exact Hperm |].
  vm_compute in Hrows. injection Hrows as <-. reflexivity.
Defined.

(** *** The entry form *)

Lemma round_half_even_floor (x : Q) : (Qfloor x <= round_half_even x)%Z.
Proof.
  unfold round_half_even. cbv zeta.
  destruct (Qcompare _ _); [destruct (Z.even _) |..]; lia.
Qed.

Lemma round2_at_least (n : Z) (x : Q) : inject_Z n <= x -> inject_Z n <= round2 x.
Proof.
  intros H. unfold round2. rewrite Qred_correct.
  assert (Hk : (n * 100 <= round_half_even (x * 100))%Z).
  { eapply Z.le_trans; [| apply round_half_even_floor].
    rewrite <- (Qfloor_Z (n * 100)). apply Qfloor_resp_le.
    rewrite inject_Z_mult. change (inject_Z 100) with 100. lra. }
  apply Qle_shift_div_l; [reflexivity |].
  change 100 with (inject_Z 100). rewrite <- inject_Z_mult, <- Zle_Qle. exact Hk.
Qed.

Lemma tier_get_status p :
  tier (get_status p)
  = if Qle_bool 75 p then 2%Z else if Qle_bool 60 p then 1%Z else 0%Z.
Proof.
  unfold get_status. destruct (Qle_bool 75 p); [reflexivity |].
  destruct (Qle_bool 60 p); reflexivity.
Qed.

Lemma round_half_even_near (x : Q) : inject_Z (round_half_even x) <= x + (1 # 2).
Proof.
  unfold round_half_even. cbv zeta.
  pose proof (Qfloor_le x) as Hf.
  destruct (Qcompare (x - inject_Z (Qfloor x)) (1 # 2)) eqn:E.
  - apply Qeq_alt in E.
    destruct (Z.even _); [lra |]. rewrite inject_Z_plus.
    change (inject_Z 1) with 1. lra.
  - lra.
  - apply Qgt_alt in E. rewrite inject_Z_plus. change (inject_Z 1) with 1. lra.
Qed.

Lemma round2_near (x : Q) : round2 x <= x + (1 # 200).
Proof.
  unfold round2. rewrite Qred_correct.
  pose proof (round_half_even_near (x * 100)) as H.
  apply Qle_shift_div_r; [reflexivity |]. lra.
Qed.

(** Property X13.  The status the entry form shows while the counts are
    typed is taken from the percentage before rounding, the stored status
    from the percentage rounded to two places: the form never shows a
    better status than the one [add_student] stores for the same counts,
    and the two differ only when the percentage lies less than 0.005 below
    60 or below 75. *)
Theorem preview_never_above_stored (int_of_str : string -> res Z)
    (total_entry present_entry : string) (total present : Z)
    (pct_text pct_color status_text status_color : string) :
  int_of_str total_entry = inl total ->
  int_of_str present_entry = inl present ->
  calc_percentage int_of_str total_entry present_entry
  = Shown pct_text pct_color status_text status_color ->
  (0 < total)%Z
  /\ (tier status_text <= tier (get_status (code_percentage total present)))%Z
  /\ (status_text <> get_status (code_percentage total present) ->
      exists bound, (bound = 60 \/ bound = 75)
        /\ bound - (1 # 200) <= inject_Z present / inject_Z total * 100
        /\ inject_Z present / inject_Z total * 100 < bound).
Proof.
  intros Ht Hp. unfold calc_percentage, code_percentage. rewrite Ht, Hp.
  cbn [Py.bind Py.ret]. destruct (0 <? total)%Z eqn:Epos; [| discriminate].
  set (pct := inject_Z present / inject_Z total * 100).
  pose proof (round2_at_least 75 pct) as H75.
  pose proof (round2_at_least 60 pct) as H60.
  pose proof (round2_near pct) as Hnear.
  change (inject_Z 75) with 75 in H75. change (inject_Z 60) with 60 in H60.
  intros H. split; [apply Z.ltb_lt, Epos |].
  rewrite tier_get_status. unfold get_status.
  threshold 75 pct; [| threshold 60 pct]; injection H as _ _ <- _.
  - rewrite (proj2 (Qle_bool_iff 75 (round2 pct))) by auto.
    split; [reflexivity | congruence].
  - rewrite (proj2 (Qle_bool_iff 60 (round2 pct))) by auto.
    threshold 75 (round2 pct).
    + split; [discriminate |]. intros _. exists 75.
      split; [auto |]. split; lra.
    + split; [reflexivity | congruence].
  - split; [destruct (Qle_bool 75 _); [| destruct (Qle_bool 60 _)]; discriminate |].
    threshold 75 (round2 pct); [| threshold 60 (round2 pct)].
    + intros _. exists 60. split; [auto |]. split; lra.
    + intros _. exists 60. split; [auto |]. split; lra.
    + congruence.
Qed.

Lemma preview_never_above_stored_witness :
  calc_percentage Web.int_of_digits "100000" "74996"
  = Shown "75.00%" "orange" "Warning" "orange"
  /\ get_status (code_percentage 100000 74996) = "Good"
  /\ (tier "Warning" <= tier (get_status (code_percentage 100000 74996)))%Z.
Proof.
  split; [vm_compute; reflexivity |]. split; [vm_compute; reflexivity |].
  apply (preview_never_above_stored Web.int_of_digits "100000" "74996" 100000 74996
           "75.00%" "orange" "Warning" "orange");
    vm_compute; reflexivity.
Defined.

Lemma add_student_outcome today f s sid name email year dept total present absent
    b msg s' :
  add_student today f s sid name email year dept total present absent
  = Some (b, msg, s') ->
  (b = true /\ has_student sid s = false
   /\ s' = {| students := students s
                ++ [stored_row today sid name email year dept total present absent];
              email_settings := email_settings s |})
  \/ (b = false /\ s' = s).
Proof.
  unfold add_student.
  apply (for_attempt_inv
           (fun r => (fst (fst r) = true /\ has_student sid s = false
                      /\ snd r = {| students := students s
                                      ++ [stored_row today sid name email year dept
                                            total present absent];
                                    email_settings := email_settings s |})
                     \/ (fst (fst r) = false /\ snd r = s))).
  intros a r.
  destruct (add_student_try today f a s sid name email year dept total present absent)
    as [s1 | e] eqn:E.
  - intros H; injection H as <-. left. cbn [fst snd].
    unfold add_student_try in E. rewrite calculate_percentage_Z in E. simpl in E.
    destruct (get_connection f a) as [[] | e]; simpl in E; [| discriminate].
    unfold insert_student in E. simpl in E.
    do 3 (apply bind_int_inv in E; cbv beta in E).
    destruct (has_student sid s) eqn:Hnew; [discriminate |]. injection E as <-.
    auto.
  - destruct e; simpl; try (intros H; injection H as <-; right; auto).
    apply (on_operational_error_inv
             (fun r => (fst (fst r) = true /\ has_student sid s = false
                        /\ snd r = {| students := students s
                                        ++ [stored_row today sid name email year
                                              dept total present absent];
                                      email_settings := email_settings s |})
                       \/ (fst (fst r) = false /\ snd r = s))).
    right. auto.
Qed.




(** *** Reads under a held file *)

Lemma select_pass_locked {A} (f : faults) (a : nat) (t : string) (g rows : A) :
  f a = Some t -> contains "locked" t = true -> (a < max_retries - 1)%nat ->
  match get_connection f a with
  | inl _ => Return rows
  | inr (OperationalError text) => on_operational_error a text g
  | inr _ => Return g
  end = Continue.
Proof.
  intros Hf Hl Ha. unfold get_connection. rewrite Hf. cbn [Py.raise].
  unfold on_operational_error. rewrite Hl.
  apply Nat.ltb_lt in Ha. rewrite Ha. reflexivity.
Qed.

Lemma select_rides_out_locks {A} (f : faults) (k : nat) (g rows : A) :
  (k <= 2)%nat ->
  (forall a, (a < k)%nat -> exists t, f a = Some t /\ contains "locked" t = true) ->
  f k = None -> select f g rows = Some rows.
Proof.
  intros Hk Hlocked Hclear. unfold select.
  change (seq 0 max_retries) with [0; 1; 2]%nat. cbn [for_attempt].
  destruct k as [| [| [| k]]]; [| | | lia].
  - unfold get_connection at 1. rewrite Hclear. reflexivity.
  - destruct (Hlocked 0%nat) as (t0 & H0 & L0); [lia |].
    rewrite (select_pass_locked f 0 t0 g rows H0 L0) by (simpl; lia).
    unfold get_connection at 1. rewrite Hclear. reflexivity.
  - destruct (Hlocked 0%nat) as (t0 & H0 & L0); [lia |].
    destruct (Hlocked 1%nat) as (t1 & H1 & L1); [lia |].
    rewrite (select_pass_locked f 0 t0 g rows H0 L0) by (simpl; lia).
    rewrite (select_pass_locked f 1 t1 g rows H1 L1) by (simpl; lia).
    unfold get_connection at 1. rewrite Hclear. reflexivity.
Qed.

Lemma select_gives_up {A} (f : faults) (k : nat) (t : string) (g rows : A) :
  (k <= 2)%nat ->
  (forall a, (a < k)%nat -> exists t', f a = Some t' /\ contains "locked" t' = true) ->
  f k = Some t -> (k = 2%nat \/ contains "locked" t = false) ->
  select f g rows = Some g.
Proof.
  intros Hk Hlocked Hfault Hlast. unfold select.
  change (seq 0 max_retries) with [0; 1; 2]%nat. cbn [for_attempt].
  assert (Hstop : match get_connection f k with
                  | inl _ => Return rows
                  | inr (OperationalError text) => on_operational_error k text g
                  | inr _ => Return g
                  end = Return g).
  { unfold get_connection. rewrite Hfault. cbn [Py.raise].
    unfold on_operational_error. destruct Hlast as [-> | ->]; [| reflexivity].
    rewrite andb_false_r. reflexivity. }
  destruct k as [| [| [| k]]]; [| | | lia].
  - rewrite Hstop. reflexivity.
  - destruct (Hlocked 0%nat) as (t0 & H0 & L0); [lia |].
    rewrite (select_pass_locked f 0 t0 g rows H0 L0) by (simpl; lia).
    rewrite Hstop. reflexivity.
  - destruct (Hlocked 0%nat) as (t0 & H0 & L0); [lia |].
    destruct (Hlocked 1%nat) as (t1 & H1 & L1); [lia |].
    rewrite (select_pass_locked f 0 t0 g rows H0 L0) by (simpl; lia).
    rewrite (select_pass_locked f 1 t1 g rows H1 L1) by (simpl; lia).
    rewrite Hstop. reflexivity.
Qed.

(** Property X15.  When the first [k] passes of a read method, for a [k]
    of at most two, find the file locked and the next pass gets its
    connection, each of the seven read methods returns what it returns
    when the file was never locked. *)
Theorem reads_ride_out_locks (f : faults) (s : db) (k : nat)
    (sid sub st y d : string) :
  (k <= 2)%nat ->
  (forall a, (a < k)%nat -> exists t, f a = Some t /\ contains "locked" t = true) ->
  f k = None ->
  get_all_students f s = get_all_students no_fault s
  /\ get_students_by_year_dept f s y d = get_students_by_year_dept no_fault s y d
  /\ search_student f s sid = search_student no_fault s sid
  /\ search_by_name f s sub = search_by_name no_fault s sub
  /\ filter_by_status f s st = filter_by_status no_fault s st
  /\ get_statistics f s = get_statistics no_fault s
  /\ get_email_settings f s = get_email_settings no_fault s.
Proof.
  intros Hk Hlocked Hclear.
  unfold get_all_students, get_students_by_year_dept, search_student,
    search_by_name, filter_by_status, get_statistics, get_email_settings.
  rewrite !(select_rides_out_locks f k) by assumption.
  rewrite !(select_no_fault no_fault) by reflexivity.
  repeat split.
Qed.

Lemma reads_ride_out_locks_witness :
  get_all_students locked_twice asha_file = get_all_students no_fault asha_file
  /\ get_statistics locked_twice asha_file = get_statistics no_fault asha_file.
Proof.
  destruct (reads_ride_out_locks locked_twice asha_file 2 "S1" "sha" "Good"
              "All" "All") as (Hall & _ & _ & _ & _ & Hst & _).
  - lia.
  - intros [| [| a]] Ha; [| | lia]; exists "database is locked"; split; reflexivity.
  - reflexivity.
  - split; assumption.
Defined.

(** Property X16.  A read method that gives up, at the first pass whose
    connection fails with a message that does not mention a lock or at
    the third pass, reports no error: the lists come back empty and
    [search_student], [get_statistics] and [get_email_settings] return
    [None], as they do on a file that holds nothing. *)
Theorem failed_reads_look_empty (f : faults) (s : db) (k : nat) (t : string)
    (sid sub st y d : string) :
  (k <= 2)%nat ->
  (forall a, (a < k)%nat -> exists t', f a = Some t' /\ contains "locked" t' = true) ->
  f k = Some t -> (k = 2%nat \/ contains "locked" t = false) ->
  get_all_students f s = Some []
  /\ get_students_by_year_dept f s y d = Some []
  /\ search_student f s sid = Some None
  /\ search_by_name f s sub = Some []
  /\ filter_by_status f s st = Some []
  /\ get_statistics f s = Some None
  /\ get_email_settings f s = Some None.
Proof.
  intros Hk Hlocked Hfault Hlast.
  unfold get_all_students, get_students_by_year_dept, search_student,
    search_by_name, filter_by_status, get_statistics, get_email_settings.
  rewrite !(select_gives_up f k t) by assumption.
  repeat split.
Qed.

Lemma failed_reads_look_empty_witness :
  get_all_students always_locked asha_file = Some []
  /\ search_student always_locked asha_file "S1" = Some None
  /\ get_all_students no_fault asha_file <> Some [].
Proof.
  destruct (failed_reads_look_empty always_locked asha_file 2
              "database is locked" "S1" "sha" "Good" "All" "All")
    as (Hall & _ & Hfind & _).
  - lia.
  - intros a Ha. exists "database is locked". split; reflexivity.
  - reflexivity.
  - left. reflexivity.
  - split; [exact Hall |]. split; [exact Hfind |]. vm_compute. discriminate.
Defined.

(** *** Mail settings *)

Lemma update_student_settings f s sid name email year dept total present absent r :
  update_student f s sid name email year dept total present absent = Some r ->
  email_settings (snd r) = email_settings s.
Proof.
  intros H. revert r H. unfold update_student.
  apply (for_attempt_inv (fun r => email_settings (snd r) = email_settings s)).
  intros a r.
  destruct (update_student_try f a s sid name email year dept total present absent)
    as [s' | e] eqn:E.
  - intros H; injection H as <-. simpl.
    unfold update_student_try in E. rewrite calculate_percentage_Z in E. simpl in E.
    destruct (get_connection f a) as [[] | e]; simpl in E; [| discriminate].
    do 3 (apply bind_int_inv in E; cbv beta in E). injection E as <-.
    reflexivity.
  - destruct e; simpl; try (intros H; injection H as <-; reflexivity).
    apply (on_operational_error_inv
             (fun r => email_settings (snd r) = email_settings s)).
    reflexivity.
Qed.

Lemma delete_student_settings f s sid r :
  delete_student f s sid = Some r -> email_settings (snd r) = email_settings s.
Proof.
  intros H. revert r H. unfold delete_student.
  apply (for_attempt_inv (fun r => email_settings (snd r) = email_settings s)).
  intros a r.
  destruct (delete_student_try f a s sid) as [s' | e] eqn:E.
  - intros H; injection H as <-. simpl.
    unfold delete_student_try in E.
    destruct (get_connection f a) as [[] | e]; simpl in E; [| discriminate].
    injection E as <-. reflexivity.
  - destruct e; simpl; try (intros H; injection H as <-; reflexivity).
    apply (on_operational_error_inv
             (fun r => email_settings (snd r) = email_settings s)).
    reflexivity.
Qed.

Lemma exec_settings s c :
  on_students c = true -> email_settings (exec s c) = email_settings s.
Proof.
  destruct c; intros Hc; try discriminate; simpl.
  - destruct (add_student _ _ _ _ _ _ _ _ _ _ _) as [[[b msg] s'] |] eqn:E;
      [| reflexivity].
    apply add_student_outcome in E as [[_ [_ ->]] | [_ ->]]; reflexivity.
  - destruct (update_student _ _ _ _ _ _ _ _ _ _) as [[m s'] |] eqn:E;
      [| reflexivity].
    apply update_student_settings in E. exact E.
  - destruct (delete_student _ _ _) as [[m s'] |] eqn:E; [| reflexivity].
    apply delete_student_settings in E. exact E.
Qed.

Lemma run_settings calls s :
  forallb on_students calls = true ->
  email_settings (run calls s) = email_settings s.
Proof.
  revert s. induction calls as [| c calls IH]; intros s H; [reflexivity |].
  simpl in H. apply andb_true_iff in H as [Hc H].
  unfold run. simpl. fold (run calls (exec s c)).
  rewrite IH by exact H. apply exec_settings, Hc.
Qed.

(** Property X17.  Once [save_email_settings] has run with a connection,
    [get_email_settings] returns the four values it was given, however
    many students are added, updated or deleted in between: the calls on
    the students table never touch the settings row. *)
Theorem settings_outlive_student_calls (before after : list call) (f f' : faults)
    (se sp hod : string) (t : Q) :
  f 0%nat = None -> f' 0%nat = None ->
  forallb on_students after = true ->
  get_email_settings f'
    (run (before ++ Save_email_settings f se sp hod t :: after)
         (init_database new_file))
  = Some (Some {| sender_email := se; sender_password := sp;
                  hod_email := hod; threshold_percentage := t |}).
Proof.
  intros Hf Hf' Hafter.
  unfold get_email_settings. rewrite select_no_fault by exact Hf'.
  unfold run. rewrite !fold_left_app. cbn [fold_left].
  fold (run before (init_database new_file)).
  set (s := run before (init_database new_file)).
  fold (run after (exec s (Save_email_settings f se sp hod t))).
  rewrite run_settings by exact Hafter.
  simpl. unfold save_email_settings. simpl.
  unfold save_email_settings_try, get_connection. rewrite Hf. reflexivity.
Qed.

Lemma settings_outlive_student_calls_witness :
  get_email_settings no_fault
    (run ([] ++ Save_email_settings no_fault "office@example.org" "secret"
                  "hod@example.org" 75 :: asha)
         (init_database new_file))
  = Some (Some {| sender_email := "office@example.org";
                  sender_password := "secret"; hod_email := "hod@example.org";
                  threshold_percentage := 75 |}).
Proof.
  apply (settings_outlive_student_calls [] asha no_fault no_fault
           "office@example.org" "secret" "hod@example.org" 75); reflexivity.
Defined.

End DesktopQueriesProofs.

(** ** The web program: keys, listings and the mailing of reports *)

Module WebQueriesProofs.
Import Py Web WebQueries PyProofs WebProofs ListProofs.

(** *** Keys *)

Lemma next_rowid_fresh (seq : Z) (ids : list Z) : ~ In (next_rowid seq ids) ids.
Proof.
  unfold next_rowid. intros Hin.
  assert (H : forall x, In x ids -> x <= fold_right Z.max 0 ids).
  { clear. induction ids as [| y ids IH]; simpl; intros x Hx; [contradiction |].
    destruct Hx as [-> | Hx]; [lia |]. specialize (IH x Hx). lia. }
  apply H in Hin. lia.
Qed.

Lemma existsb_false_In {A} (p : A -> bool) (l : list A) (x : A) :
  existsb p l = false -> In x l -> p x = false.
Proof.
  intros H Hin. destruct (p x) eqn:E; [| reflexivity].
  assert (existsb p l = true) by (apply existsb_exists; eauto). congruence.
Qed.

Lemma insert_mark_keys conn sid code v s s' :
  insert_mark conn sid code v s = inl s' -> keys_unique s -> keys_unique s'.
Proof.
  unfold insert_mark.
  destruct (existsb _ (marks s)) eqn:Enew; [discriminate |].
  destruct (_ && _); [discriminate |].
  intros H; injection H as <-.
  intros (H1 & H2 & H3 & H4 & H5 & H6 & H7).
  unfold keys_unique. cbn [set_marks students subjects marks attendance].
  repeat split; try assumption; rewrite map_app; apply NoDup_snoc; try assumption.
  - cbn [map m_student_id m_subject_code]. intros Hin.
    apply in_map_iff in Hin as (m & Hm & Hin). injection Hm as Hs Hc.
    apply (existsb_false_In _ _ m Enew) in Hin.
    rewrite Hs, Hc, !String.eqb_refl in Hin. discriminate.
  - apply next_rowid_fresh.
Qed.

Lemma insert_attendance_keys conn sid month held attended s s' :
  insert_attendance conn sid month held attended s = inl s' ->
  keys_unique s -> keys_unique s'.
Proof.
  unfold insert_attendance. intros H.
  do 2 (apply bind_int_inv in H; cbv beta in H). revert H.
  destruct (existsb _ (attendance s)) eqn:Enew; [discriminate |].
  destruct (_ && _); [discriminate |].
  intros H; injection H as <-.
  intros (H1 & H2 & H3 & H4 & H5 & H6 & H7).
  unfold keys_unique. cbn [set_attendance students subjects marks attendance].
  repeat split; try assumption; rewrite map_app; apply NoDup_snoc; try assumption.
  - cbn [map a_student_id a_month]. intros Hin.
    apply in_map_iff in Hin as (a & Ha & Hin). injection Ha as Hs Hc.
    apply (existsb_false_In _ _ a Enew) in Hin.
    rewrite Hs, Hc, !String.eqb_refl in Hin. discriminate.
  - apply next_rowid_fresh.
Qed.

Lemma delete_marks_keys sid s : keys_unique s -> keys_unique (delete_marks sid s).
Proof.
  intros (H1 & H2 & H3 & H4 & H5 & H6 & H7).
  unfold keys_unique, delete_marks.
  cbn [set_marks students subjects marks attendance].
  repeat split; try assumption; apply NoDup_map_filter; assumption.
Qed.

Lemma delete_attendance_keys sid s :
  keys_unique s -> keys_unique (delete_attendance sid s).
Proof.
  intros (H1 & H2 & H3 & H4 & H5 & H6 & H7).
  unfold keys_unique, delete_attendance.
  cbn [set_attendance students subjects marks attendance].
  repeat split; try assumption; apply NoDup_map_filter; assumption.
Qed.

Lemma replace_student_keys r s :
  keys_unique s ->
  keys_unique
    (set_students
       (filter (fun x => not_of_student (s_student_id r) (s_student_id x))
               (students s) ++ [r]) s).
Proof.
  intros (H1 & H2 & H3 & H4 & H5 & H6 & H7).
  unfold keys_unique. cbn [set_students students subjects marks attendance].
  repeat split; try assumption.
  rewrite map_app. apply NoDup_snoc; [apply NoDup_map_filter, H1 |].
  cbn [map]. intros Hin. apply in_map_iff in Hin as (x & Hx & Hin).
  apply filter_In in Hin as [_ Hin]. unfold not_of_student in Hin.
  rewrite Hx, String.eqb_refl in Hin. discriminate.
Qed.

Section Keys.

Variable float_of_str : string -> res Q.
Variable int_of_str : string -> res Z.

Lemma save_marks_keys conn sid items s s' :
  save_marks float_of_str conn sid items s = inl s' ->
  keys_unique s -> keys_unique s'.
Proof.
  revert s. induction items as [| [code v] items IH]; simpl; intros s H Hs.
  - injection H as <-. exact Hs.
  - apply bind_inl in H as (s1 & H1 & H). apply (IH s1 H).
    destruct (is_not_none v && str_strip_nonempty v).
    + apply bind_inl in H1 as (q & _ & H1). apply (insert_mark_keys _ _ _ _ _ _ H1 Hs).
    + injection H1 as <-. exact Hs.
Qed.

Lemma save_months_keys conn sid items s s' :
  save_months int_of_str conn sid items s = inl s' ->
  keys_unique s -> keys_unique s'.
Proof.
  revert s. induction items as [| [month data] items IH]; simpl; intros s H Hs.
  - injection H as <-. exact Hs.
  - apply bind_inl in H as (s1 & H1 & H). apply (IH s1 H).
    apply bind_inl in H1 as (h & _ & H1). apply bind_inl in H1 as (held & _ & H1).
    apply bind_inl in H1 as (a & _ & H1). apply bind_inl in H1 as (att & _ & H1).
    destruct (0 <? held).
    + apply (insert_attendance_keys _ _ _ _ _ _ _ H1 Hs).
    + injection H1 as <-. exact Hs.
Qed.

Lemma upsert_keys today s sid name dept_name year semester email program_type
    duration_years course_name marks_data attendance_data :
  keys_unique s ->
  keys_unique (snd (add_or_update_student float_of_str int_of_str today s sid
                      name dept_name year semester email program_type
                      duration_years course_name marks_data attendance_data)).
Proof.
  intros Hs. unfold add_or_update_student.
  destruct (save_student _ _ _ _ _ _ _ _ _ _ _ _ _ _ _ _) as [s' | e] eqn:E;
    [| destruct e; exact Hs].
  cbn [snd]. rewrite save_student_unenforced in E.
  do 3 (apply bind_int_inv in E; cbv beta in E).
  apply bind_inl in E as (s4 & E4 & E).
  apply (save_months_keys _ _ _ _ _ E).
  apply (save_marks_keys _ _ _ _ _ E4).
  apply delete_attendance_keys, delete_marks_keys.
  apply (replace_student_keys
           {| s_student_id := sid; s_name := name;
              s_dept_code := find_dept_code s dept_name; s_year := year;
              s_semester := semester; s_email := email;
              s_program_type := program_type;
              s_duration_years := duration_years;
              s_course_name := course_name; s_created_date := today |}).
  exact Hs.
Qed.

Lemma add_subject_keys s name code year semester max_marks :
  keys_unique s -> keys_unique (snd (add_subject s name code year semester max_marks)).
Proof.
  intros Hs. unfold add_subject.
  destruct (Py.bind (bind_int year) _) as [s' | e] eqn:E;
    [| destruct e; exact Hs].
  cbn [snd]. do 3 (apply bind_int_inv in E; cbv beta in E).
  destruct (has_subject code s) eqn:Enew; [discriminate |]. injection E as <-.
  destruct Hs as (H1 & H2 & H3 & H4 & H5 & H6 & H7).
  unfold keys_unique. cbn [set_subjects students subjects marks attendance].
  repeat split; try assumption; rewrite map_app; apply NoDup_snoc; try assumption.
  - cbn [map sub_subject_code]. intros Hin.
    apply in_map_iff in Hin as (x & Hx & Hin).
    apply (existsb_false_In _ _ x Enew) in Hin.
    rewrite Hx, String.eqb_refl in Hin. discriminate.
  - apply next_rowid_fresh.
Qed.

Lemma populate_from_tables i depts s s' :
  populate_from i depts s = inl s' ->
  students s' = students s /\ subjects s' = subjects s /\ marks s' = marks s
  /\ attendance s' = attendance s /\ settings s' = settings s.
Proof.
  revert i s. induction depts as [| d depts IH]; simpl; intros i s H.
  - injection H as <-. auto.
  - apply bind_inl in H as (s1 & H1 & H). apply IH in H.
    unfold insert_department in H1. destruct (existsb _ _); [discriminate |].
    injection H1 as <-. exact H.
Qed.

Lemma init_database_tables s s' :
  init_database s = Some s' ->
  students s' = students s /\ subjects s' = subjects s /\ marks s' = marks s
  /\ attendance s' = attendance s.
Proof.
  unfold init_database, _populate_default_departments.
  set (s1 := match settings s with Some _ => s | None => _ end).
  assert (H1 : students s1 = students s /\ subjects s1 = subjects s
               /\ marks s1 = marks s /\ attendance s1 = attendance s)
    by (subst s1; destruct (settings s); auto).
  destruct (_ =? _)%nat.
  - destruct (populate_from 0 DEPARTMENTS s1) as [s2 | e] eqn:E; [| discriminate].
    intros H; injection H as <-. apply populate_from_tables in E.
    destruct E as (-> & -> & -> & -> & _). exact H1.
  - intros H; injection H as <-. exact H1.
Qed.

Lemma init_database_keys s s' :
  init_database s = Some s' -> keys_unique s -> keys_unique s'.
Proof.
  intros H. apply init_database_tables in H as (H1 & H2 & H3 & H4).
  unfold keys_unique. rewrite H1, H2, H3, H4. auto.
Qed.

Lemma save_email_settings_keys s e p :
  keys_unique s -> keys_unique (save_email_settings s e p).
Proof. unfold save_email_settings. destruct (settings s); auto. Qed.

Lemma reachable_keys s :
  reachable float_of_str int_of_str s -> keys_unique s.
Proof.
  induction 1 as [s H | s s' _ IH H | | |].
  - apply (init_database_keys _ _ H). repeat split; constructor.
  - apply (init_database_keys _ _ H IH).
  - apply upsert_keys. assumption.
  - apply add_subject_keys. assumption.
  - apply save_email_settings_keys. assumption.
Qed.

End Keys.

(** *** Joins over unique keys *)

Lemma NoDup_flat_map {A B K} (f : A -> list B) (g : B -> K) (k : A -> K)
    (l : list A) :
  (forall x y, In x l -> In y (f x) -> g y = k x) ->
  (forall x, In x l -> NoDup (map g (f x))) ->
  NoDup (map k l) -> NoDup (map g (flat_map f l)).
Proof.
  induction l as [| x l IH]; simpl; intros Hg Hf Hk; [constructor |].
  inversion Hk as [| ? ? Hx Hl]; subst.
  rewrite map_app. apply NoDup_app.
  - apply Hf. auto.
  - apply IH; auto.
  - intros z Hz1 Hz2.
    apply in_map_iff in Hz1 as (y1 & <- & Hy1).
    apply in_map_iff in Hz2 as (y2 & E & Hy2).
    apply in_flat_map in Hy2 as (x2 & Hx2 & Hy2).
    apply Hx. rewrite <- (Hg x y1) by auto. rewrite <- E.
    rewrite (Hg x2 y2) by auto. apply in_map, Hx2.
Qed.

Lemma NoDup_second_key {A} (a b : A -> string) (sid : string) (l : list A) :
  NoDup (map (fun x => (a x, b x)) l) ->
  NoDup (map b (filter (fun x => String.eqb (a x) sid) l)).
Proof.
  intros H. apply (NoDup_map_filter _ (fun x => String.eqb (a x) sid)) in H.
  apply (NoDup_map_inv (pair sid)). rewrite map_map.
  erewrite map_ext_in; [exact H |].
  intros x Hx. apply filter_In in Hx as [_ Hx]. apply String.eqb_eq in Hx.
  simpl. rewrite Hx. reflexivity.
Qed.

Lemma filter_key_at_most_one {A} (key : A -> string) (k : string) (l : list A) :
  NoDup (map key l) ->
  (List.length (filter (fun x => String.eqb k (key x)) l) <= 1)%nat.
Proof.
  induction l as [| x l IH]; simpl; intros H; [lia |].
  inversion H as [| ? ? Hx Hl]; subst. specialize (IH Hl).
  destruct (String.eqb k (key x)) eqn:E; [| lia].
  apply String.eqb_eq in E. subst k. rewrite filter_none; [simpl; lia |].
  intros y Hy. apply String.eqb_neq. intros E. apply Hx. rewrite E.
  apply in_map, Hy.
Qed.

Lemma NoDup_short {B} (l : list B) : (List.length l <= 1)%nat -> NoDup l.
Proof.
  destruct l as [| x [| y l]]; simpl; intros H; try lia; repeat constructor; auto.
Qed.

Lemma marks_join_subjects_codes s sid :
  keys_unique s ->
  NoDup (map (fun row => sub_subject_code (snd row)) (marks_join_subjects s sid)).
Proof.
  intros (_ & H2 & H3 & _). unfold marks_join_subjects.
  apply (NoDup_flat_map _ _ m_subject_code).
  - intros m row _ Hrow. apply in_map_iff in Hrow as (sub & <- & Hsub).
    apply filter_In in Hsub as [_ Hsub]. apply String.eqb_eq in Hsub. auto.
  - intros m _. rewrite map_map. cbn [snd]. apply NoDup_map_filter, H2.
  - apply (NoDup_second_key m_student_id m_subject_code), H3.
Qed.

Lemma default_departments_codes : NoDup (map d_dept_code default_departments).
Proof.
  vm_compute. repeat (constructor; [simpl; intuition discriminate |]). constructor.
Qed.

Lemma students_join_departments_ids s l :
  NoDup (map d_dept_code (departments s)) -> NoDup (map s_student_id l) ->
  NoDup (map (fun row => s_student_id (fst row)) (students_join_departments s l)).
Proof.
  intros Hd Hl. unfold students_join_departments.
  apply (NoDup_flat_map _ _ s_student_id).
  - intros r row _ Hrow. apply in_map_iff in Hrow as (d & <- & _). reflexivity.
  - intros r _. apply NoDup_short. rewrite !length_map.
    apply filter_key_at_most_one, Hd.
  - exact Hl.
Qed.

Lemma summarise_id s row : sum_student_id (summarise s row) = s_student_id (fst row).
Proof. destruct row as [r d]. reflexivity. Qed.

Lemma scenario_reachable : reachable float_of_digits int_of_digits scenario.
Proof.
  unfold scenario, save_s1, upsert. apply reach_student, two_subjects_reachable.
Defined.

Section Listings.

Variable float_of_str : string -> res Q.
Variable int_of_str : string -> res Z.

(** Property X18.  In every file the web program can have written the
    keys the schema declares are distinct: student ids, subject codes,
    the (student, subject) pairs of marks, the (student, month) pairs of
    attendance and the rowids.  So the list of students shows no student
    twice, and a report card no subject and no month twice. *)
Theorem listings_show_nothing_twice (s : db) :
  reachable float_of_str int_of_str s ->
  keys_unique s
  /\ NoDup (map sum_student_id (get_all_students_summary s))
  /\ forall sid student marks_data attendance_data,
       get_student_details_and_data s sid
       = Some (student, marks_data, attendance_data) ->
       NoDup (map (fun m => fst (fst (fst m))) marks_data)
       /\ NoDup (map (fun a => fst (fst a)) attendance_data).
Proof.
  intros Hs. pose proof (reachable_keys _ _ s Hs) as Hk.
  pose proof (reachable_departments _ _ s Hs) as Hd.
  split; [exact Hk |]. split.
  - unfold get_all_students_summary. rewrite map_map.
    erewrite map_ext by apply summarise_id.
    eapply Permutation_NoDup.
    + apply Permutation_map. symmetry. apply order_by_perm.
    + apply students_join_departments_ids; [| apply Hk].
      rewrite Hd. apply default_departments_codes.
  - intros sid student marks_data attendance_data H.
    unfold get_student_details_and_data in H.
    destruct (students_join_departments s _) as [| [r d] rest]; [discriminate |].
    injection H as _ <- <-. rewrite !map_map. cbn [fst snd]. split.
    + apply marks_join_subjects_codes, Hk.
    + eapply Permutation_NoDup.
      * apply Permutation_map. symmetry. apply order_by_perm.
      * destruct Hk as (_ & _ & _ & H4 & _).
        apply (NoDup_second_key a_student_id a_month), H4.
Qed.

End Listings.

Lemma listings_show_nothing_twice_witness :
  keys_unique scenario
  /\ NoDup (map sum_student_id (get_all_students_summary scenario))
  /\ map sum_student_id (get_all_students_summary scenario) = ["S1"].
Proof.
  destruct (listings_show_nothing_twice float_of_digits int_of_digits scenario
              scenario_reachable) as (Hkeys & Hlist & _).
  split; [exact Hkeys |]. split; [exact Hlist |]. vm_compute. reflexivity.
Defined.

(** *** The upsert and the other students *)

Lemma filter_other {A} (owner : A -> string) (sid other : string)
    (l rows : list A) :
  other <> sid -> Forall (fun x => owner x = sid) rows ->
  filter (fun x => String.eqb (owner x) other)
         (filter (fun x => not_of_student sid (owner x)) l ++ rows)
  = filter (fun x => String.eqb (owner x) other) l.
Proof.
  intros Hne Hrows. rewrite filter_app.
  rewrite (filter_none _ rows).
  - rewrite app_nil_r. induction l as [| x l IH]; simpl; [reflexivity |].
    unfold not_of_student at 1.
    destruct (String.eqb (owner x) sid) eqn:E1; simpl.
    + apply String.eqb_eq in E1.
      destruct (String.eqb (owner x) other) eqn:E2; [| exact IH].
      apply String.eqb_eq in E2. congruence.
    + rewrite IH. reflexivity.
  - intros x Hx. rewrite Forall_forall in Hrows. rewrite (Hrows x Hx).
    apply String.eqb_neq. congruence.
Qed.

Section Others.

Variable float_of_str : string -> res Q.
Variable int_of_str : string -> res Z.

(** Property X19.  Saving one student, whether the save succeeds or
    fails, changes nothing of what the program shows for any other
    student: the details, marks and attendance, the figures of the
    report card, the subjects and the mail settings are as before. *)
Theorem upsert_leaves_other_students today s sid name dept_name year semester
    email program_type duration_years course_name marks_data attendance_data
    (other : string) :
  other <> sid ->
  let s' := snd (add_or_update_student float_of_str int_of_str today s sid name
                   dept_name year semester email program_type duration_years
                   course_name marks_data attendance_data) in
  get_student_details_and_data s' other = get_student_details_and_data s other
  /\ generate_student_report_pdf s' other = generate_student_report_pdf s other
  /\ get_all_subjects s' = get_all_subjects s
  /\ get_email_settings s' = get_email_settings s.
Proof.
  intros Hne. cbv zeta. unfold add_or_update_student.
  destruct (save_student _ _ _ _ _ _ _ _ _ _ _ _ _ _ _ _) as [s' | e] eqn:E;
    [| destruct e; repeat split].
  cbn [snd].
  apply save_student_inl in E as (mrows & n1 & arows & n2 & -> & Hm & Ha).
  assert (Hd : get_student_details_and_data
                 (set_attendance
                    (filter (fun a => not_of_student sid (a_student_id a))
                            (attendance s) ++ arows) n2
                    (set_marks
                       (filter (fun m => not_of_student sid (m_student_id m))
                               (marks s) ++ mrows) n1
                       (set_students
                          (filter (fun x => not_of_student sid (s_student_id x))
                                  (students s)
                           ++ [{| s_student_id := sid; s_name := name;
                                  s_dept_code := find_dept_code s dept_name;
                                  s_year := year; s_semester := semester;
                                  s_email := email; s_program_type := program_type;
                                  s_duration_years := duration_years;
                                  s_course_name := course_name;
                                  s_created_date := today |}]) s))) other
               = get_student_details_and_data s other).
  { unfold get_student_details_and_data, marks_join_subjects,
      students_join_departments.
    cbn [set_attendance set_marks set_students students departments marks
         subjects attendance].
    rewrite (filter_other s_student_id), (filter_other m_student_id),
      (filter_other a_student_id); try assumption; try reflexivity.
    - eapply Forall2_left; [| exact Ha]. intros a b H. apply H.
    - eapply Forall2_left; [| exact Hm]. intros a b H. apply H.
    - repeat constructor. }
  split; [exact Hd |]. split; [| split; reflexivity].
  unfold generate_student_report_pdf. rewrite Hd. reflexivity.
Qed.

(** *** Values that cannot be converted *)




End Others.


Lemma upsert_leaves_other_students_witness :
  saved (save_bala s2_marks) = true
  /\ get_student_details_and_data (snd (save_bala s2_marks)) "S1"
     = get_student_details_and_data scenario "S1"
  /\ generate_student_report_pdf (snd (save_bala s2_marks)) "S1"
     = generate_student_report_pdf scenario "S1".
Proof.
  split; [vm_compute; reflexivity |].
  destruct (upsert_leaves_other_students float_of_digits int_of_digits
              "2024-06-02" scenario "S2" "Bala" "B.A. Tamil" 2 3 "" "UG" 3
              "Tamil" s2_marks s2_months "S1") as (Hd & Hr & _).
  - discriminate.
  - split; [exact Hd | exact Hr].
Defined.

(** *** Departments of the list *)


Section Known.

Variable float_of_str : string -> res Q.
Variable int_of_str : string -> res Z.



End Known.


(** *** Subjects *)

Lemma bind_int_fits {A} (z : Z) (k : Z -> res A) :
  fits_int64 z = true -> Py.bind (bind_int z) k = k z.
Proof. intros H. unfold bind_int. rewrite H. reflexivity. Qed.

(** Property X22.  With values that fit an SQLite INTEGER, [add_subject]
    registers a code that is new, after which [get_all_subjects] lists
    the subject beside those it listed before and a second registration
    of the code is refused; a code that is taken is refused with
    "already exists" and the file is as it was. *)
Theorem add_subject_then_listed (s : db) (name code : string)
    (year semester max_marks : Z) :
  fits_int64 year = true -> fits_int64 semester = true ->
  fits_int64 max_marks = true ->
  (has_subject code s = false ->
   exists s',
     add_subject s name code year semester max_marks
     = (inl (true, Text ("Subject '" ++ name ++ "' added successfully.")), s')
     /\ Permutation (get_all_subjects s')
          ((code, name, year, semester, max_marks) :: get_all_subjects s)
     /\ add_subject s' name code year semester max_marks
        = (inl (false, Text ("Subject code '" ++ code ++ "' already exists.")), s'))
  /\ (has_subject code s = true ->
      add_subject s name code year semester max_marks
      = (inl (false, Text ("Subject code '" ++ code ++ "' already exists.")), s)).
Proof.
  intros Hy Hs Hm. split; intros Hnew.
  - unfold add_subject at 1. rewrite !bind_int_fits by assumption. rewrite Hnew.
    eexists. split; [reflexivity |]. split.
    + unfold get_all_subjects. cbn [set_subjects subjects].
      rewrite order_by_perm, Permutation_app_comm.
      cbn [app map]. constructor.
      apply Permutation_map. symmetry. apply order_by_perm.
    + unfold add_subject. rewrite !bind_int_fits by assumption.
      unfold has_subject. cbn [set_subjects subjects].
      rewrite existsb_app. cbn [existsb sub_subject_code].
      rewrite String.eqb_refl, orb_true_r. reflexivity.
  - unfold add_subject. rewrite !bind_int_fits by assumption. rewrite Hnew.
    reflexivity.
Qed.

Lemma add_subject_then_listed_witness :
  exists s',
    add_subject two_subjects "Chemistry" "CHE01" 1 2 100
    = (inl (true, Text "Subject 'Chemistry' added successfully."), s')
    /\ Permutation (get_all_subjects s')
         (("CHE01", "Chemistry", 1, 2, 100) :: get_all_subjects two_subjects)
    /\ add_subject s' "Chemistry" "CHE01" 1 2 100
       = (inl (false, Text "Subject code 'CHE01' already exists."), s').
Proof.
  destruct (add_subject_then_listed two_subjects "Chemistry" "CHE01" 1 2 100
              eq_refl eq_refl eq_refl) as [Hnew _].
  apply Hnew. reflexivity.
Defined.

(** *** Mailing a report *)

Section Mail.

Variable float_of_str : string -> res Q.
Variable int_of_str : string -> res Z.









End Mail.


(** *** The list of students and the report card *)




End WebQueriesProofs.
